(** * Session management of the SQL store: a shallow embedding

    The Go package [sqlstore] (session.go) manages database sessions that
    are shared through a [context.Context], retries callbacks that fail on
    sqlite lock contention, queues events for publication after commit and
    inserts single rows through dialect hooks.

    Go pointers are modelled as optional heap locations, [error] values as
    an inductive type with the wrapping structure [errors.As] walks, and
    every function that touches sessions as a state transformer that may
    also panic. *)

From Stdlib Require Import ZArith String List Lia Bool.
From stdpp Require Import base gmap strings list.

Local Open Scope string_scope.
Local Open Scope list_scope.
Local Open Scope Z_scope.

(** ** Go values *)

(** A heap address; a pointer is [None] (nil) or [Some] address. *)
Abbreviation loc := nat (only parsing).
Abbreviation ptr := (option nat) (only parsing).

(** The 64-bit two's complement [int] of the target platform. *)
Definition int_wrap (z : Z) : Z := (z + 2 ^ 63) mod 2 ^ 64 - 2 ^ 63.

(** [reflect.Type] as far as [getTypeName] looks at it. *)
Inductive GoType :=
| Named (name : string)
| Unnamed (kind : string)
| PtrTo (elem : GoType).

(** A non-nil [interface{}] value: dynamic type and an opaque payload. *)
Record Iface := { dyn_type : GoType; dyn_val : Z }.

(** [interface{}]; [None] is the nil interface. *)
Definition interface := option Iface.

(** ** Errors *)

Module sqlite3.
Record Error := { Code : Z; ExtendedCode : Z }.
Definition ErrBusy : Z := 5.
Definition ErrLocked : Z := 6.
End sqlite3.

Module errutil.
Inductive StatusReason := StatusInternal | StatusOther (name : string).
Record Base := NewBase { reason : StatusReason; messageID : string }.
End errutil.

(** Non-nil values of Go's [error] interface.  [FmtWrap] is an error made
    with [fmt.Errorf] and the verb %w; [ErrutilError] is what
    [errutil.Base.Errorf] builds. *)
Inductive error :=
| SqliteError (e : sqlite3.Error)
| OpaqueError (msg : string)
| FmtWrap (msg : string) (wrapped : error)
| ErrutilError (base : errutil.Base) (format : string) (args : list Z) (wrapped : error).

Module errors.

(** [errors.As(err, &target)] for a target of type [sqlite3.Error]: the
    first error of that type on the chain of [Unwrap]. *)
Fixpoint As_sqlite3 (err : error) : option sqlite3.Error :=
  match err with
  | SqliteError e => Some e
  | OpaqueError _ => None
  | FmtWrap _ w => As_sqlite3 w
  | ErrutilError _ _ _ w => As_sqlite3 w
  end.

End errors.

(** Modelled from the spec: [errutil.Base.Errorf] of pkg/util/errutil is
    not among the sources.  Section 4.4 asks for a distinguished error
    that wraps the last underlying error and records the attempt number:
    the value keeps the base, the format, its integer arguments and the
    error passed for %w. *)
Definition Errorf (b : errutil.Base) (format : string) (args : list Z) (err : error) : error :=
  ErrutilError b format args err.

(** ** Computations that may panic *)

Inductive Outcome (A : Type) :=
| Ret (a : A)
| Panic (msg : string).
Arguments Ret {A} a.
Arguments Panic {A} msg.

Definition M (S A : Type) : Type := S -> Outcome A * S.

Definition ret {S A} (a : A) : M S A := fun s => (Ret a, s).

Definition panic {S A} (msg : string) : M S A := fun s => (Panic msg, s).

Definition bind {S A B} (m : M S A) (k : A -> M S B) : M S B :=
  fun s =>
    match m s with
    | (Ret a, s') => k a s'
    | (Panic msg, s') => (Panic msg, s')
    end.

(** [defer f(); body]: the deferred call runs when [body] returns and
    when it panics; the panic then goes on. *)
Definition defer {S A} (deferred : S -> S) (body : M S A) : M S A :=
  fun s => let '(r, s') := body s in (r, deferred s').

Definition modify {S} (f : S -> S) : M S unit := fun s => (Ret tt, f s).

Definition gets {S A} (f : S -> A) : M S A := fun s => (Ret (f s), s).

Declare Scope go_scope.
Delimit Scope go_scope with go.
Notation "x <- m ;; k" := (bind m (fun x => k))
  (at level 100, m at next level, right associativity) : go_scope.

Definition nil_deref : string := "invalid memory address or nil pointer dereference".

(** ** context.Context *)

Module context.
Inductive Key :=
| ContextSessionKey
| OtherKey (name : string).

(** What the package stores in a context: a [*DBSession] or anything
    else, of which only the fact that it is no [*DBSession] matters. *)
Inductive Val :=
| DBSessionPtr (p : ptr)
| OtherVal (tag : string).

Inductive Context :=
| Background
| WithValue (parent : Context) (key : Key) (val : Val)
| WithCancel (parent : Context) (canceled : bool).

Definition key_eqb (a b : Key) : bool :=
  match a, b with
  | ContextSessionKey, ContextSessionKey => true
  | OtherKey x, OtherKey y => String.eqb x y
  | _, _ => false
  end.

Fixpoint Value (ctx : Context) (key : Key) : option Val :=
  match ctx with
  | Background => None
  | WithValue parent k v => if key_eqb k key then Some v else Value parent key
  | WithCancel parent _ => Value parent key
  end.

End context.

(** ** xorm, at its interface *)

Module xorm.
Record Mapper := { Obj2Table : string -> string }.

Record Engine := { mapper : Mapper }.

(** The part of [xorm.Session] the package relies on. *)
Record Session := {
  engine : Engine;
  ctx : option context.Context;
  inTx : bool;
  isClosed : bool
}.

(** Sessions by address, the persisted rows, and what the driver will
    answer to the next [Begin] and [InsertOne]. *)
Record DB := {
  sessions : gmap loc Session;
  rows : list (Iface * Z);
  begin_fault : option error;
  insert_fault : option error
}.

Definition set_sessions (f : gmap loc Session -> gmap loc Session) (db : DB) : DB :=
  {| sessions := f (sessions db); rows := rows db;
     begin_fault := begin_fault db; insert_fault := insert_fault db |}.

Definition set_rows (f : list (Iface * Z) -> list (Iface * Z)) (db : DB) : DB :=
  {| sessions := sessions db; rows := f (rows db);
     begin_fault := begin_fault db; insert_fault := insert_fault db |}.

Definition load (x : ptr) : M DB Session :=
  fun db =>
    match x with
    | None => (Panic nil_deref, db)
    | Some l =>
        match sessions db !! l with
        | Some s => (Ret s, db)
        | None => (Panic nil_deref, db)
        end
    end.

Definition update (x : ptr) (f : Session -> Session) : M DB unit :=
  bind (load x) (fun s =>
    match x with
    | Some l => modify (set_sessions (insert l (f s)))
    | None => panic nil_deref
    end).

(** [engine.NewSession()] *)
Definition NewSession (e : Engine) : M DB ptr :=
  fun db =>
    let l := fresh (dom (sessions db)) in
    let s := {| engine := e; ctx := None; inTx := false; isClosed := false |} in
    (Ret (Some l), set_sessions (insert l s) db).

(** [session.Context(ctx)] stores the context in the session and
    returns the receiver. *)
Definition Context (x : ptr) (c : context.Context) : M DB ptr :=
  bind (update x (fun s =>
          {| engine := engine s; ctx := Some c; inTx := inTx s; isClosed := isClosed s |}))
       (fun _ => ret x).

(** [session.Begin()] *)
Definition Begin (x : ptr) : M DB (option error) :=
  bind (load x) (fun s =>
  bind (gets begin_fault) (fun fault =>
    match fault with
    | Some e => ret (Some e)
    | None =>
        bind (update x (fun s =>
                {| engine := engine s; ctx := ctx s; inTx := true; isClosed := isClosed s |}))
             (fun _ => ret None)
    end)).

Definition closed (s : Session) : Session :=
  {| engine := engine s; ctx := ctx s; inTx := false; isClosed := true |}.

(** [session.Close()] as a deferred call: the receiver was evaluated
    when the defer statement ran and is a live session. *)
Definition Close (x : ptr) (db : DB) : DB :=
  match x with
  | Some l => set_sessions (alter closed l) db
  | None => db
  end.

(** [session.DB().Mapper] *)
Definition DB_Mapper (x : ptr) : M DB Mapper :=
  bind (load x) (fun s => ret (mapper (engine s))).

(** [session.InsertOne(bean)]: one row persisted under a generated
    identifier (the position of the row); what the call returns is the
    number of affected rows, 1, or 0 with the driver's error. *)
Definition InsertOne (x : ptr) (bean : interface) : M DB (Z * option error) :=
  bind (load x) (fun _ =>
    match bean with
    | None => panic nil_deref
    | Some b =>
        bind (gets insert_fault) (fun fault =>
          match fault with
          | Some e => ret (0, Some e)
          | None =>
              bind (gets rows) (fun rs =>
                let id := Z.of_nat (length rs) + 1 in
                bind (modify (set_rows (fun rs => rs ++ [(b, id)])))
                     (fun _ => ret (1, None)))
          end)
    end).
End xorm.

(** ** The state of the package *)

Module time.
(** [time.Duration]: nanoseconds. *)
Definition Duration := Z.
Definition Millisecond : Duration := 1000000.
Definition Second : Duration := 1000000000.
End time.

(** [type DBSession struct { *xorm.Session; transactionOpen bool; events []interface{} }] *)
Record DBSession := {
  Session : ptr;
  transactionOpen : bool;
  events : list interface
}.

(** Everything a callback can reach: the database with its xorm sessions,
    the [DBSession] values by address, and the variables [user] the
    callback closes over. *)
Record Store (U : Type) := {
  db : xorm.DB;
  heap : gmap loc DBSession;
  user : U
}.
Arguments db {U} _.
Arguments heap {U} _.
Arguments user {U} _.

(** What the package itself does besides: log lines, calls of the
    callback, and the waits of the retryer. *)
Inductive Event :=
| LogDebug (logger msg : string) (transaction : bool)
| LogInfo (logger msg : string) (err : option error) (retry code : Z)
| Invoke (sess : ptr)
| Wait (d : time.Duration).

Record World (U : Type) := {
  store : Store U;
  trace : list Event
}.
Arguments store {U} _.
Arguments trace {U} _.

(** [type DBTransactionFunc func(sess *DBSession) error] *)
Definition DBTransactionFunc (U : Type) : Type := ptr -> M (Store U) (option error).

Section state.
Context {U : Type}.

Definition set_db (f : xorm.DB -> xorm.DB) (s : Store U) : Store U :=
  {| db := f (db s); heap := heap s; user := user s |}.

Definition set_heap (f : gmap loc DBSession -> gmap loc DBSession) (s : Store U) : Store U :=
  {| db := db s; heap := f (heap s); user := user s |}.

Definition set_store (f : Store U -> Store U) (w : World U) : World U :=
  {| store := f (store w); trace := trace w |}.

Definition emit (e : Event) (w : World U) : World U :=
  {| store := store w; trace := trace w ++ [e] |}.

(** Run an xorm operation on the database of the store. *)
Definition on_db {A} (m : M xorm.DB A) : M (Store U) A :=
  fun s => let '(r, d) := m (db s) in (r, set_db (fun _ => d) s).

(** Run a store operation in the world; the trace stays. *)
Definition on_store {A} (m : M (Store U) A) : M (World U) A :=
  fun w => let '(r, s) := m (store w) in (r, set_store (fun _ => s) w).

Definition log (e : Event) : M (World U) unit := modify (emit e).

(** [*sess] *)
Definition deref (sess : ptr) : M (Store U) DBSession :=
  fun s =>
    match sess with
    | None => (Panic nil_deref, s)
    | Some l =>
        match heap s !! l with
        | Some v => (Ret v, s)
        | None => (Panic nil_deref, s)
        end
    end.

(** [*sess = v] *)
Definition assign (sess : ptr) (v : DBSession) : M (Store U) unit :=
  match sess with
  | Some l => modify (set_heap (insert l v))
  | None => panic nil_deref
  end.

(** [&DBSession{...}] *)
Definition new (v : DBSession) : M (Store U) ptr :=
  fun s =>
    let l := fresh (dom (heap s)) in
    (Ret (Some l), set_heap (insert l v) s).

(** [callback(sess)] *)
Definition invoke (callback : DBTransactionFunc U) (sess : ptr) : M (World U) (option error) :=
  bind (log (Invoke sess)) (fun _ => on_store (callback sess)).
End state.

(** ** The retryer *)

Module retryer.
Inductive RetrySignal := FuncFailure | FuncComplete | FuncError.

(** A [func() (RetrySignal, error)] that closes over variables of type
    [C]: a call reads and writes them. *)
Definition Body (C W : Type) : Type := C -> W -> Outcome (RetrySignal * option error) * C * W.

Definition ErrMaxRetries : error := OpaqueError "max retries exceeded".

Section Retry.
Context {U C : Type}.
Variable body : Body C (World U).
Variable maxDelay : time.Duration.

(** One attempt and, while the body reports a failure without an
    error, up to [more] further ones. *)
Fixpoint attempts (more : nat) (currentDelay : time.Duration) (c : C) (w : World U)
  : Outcome (option error) * C * World U :=
  match body c w with
  | (Panic msg, c1, w1) => (Panic msg, c1, w1)
  | (Ret (_, Some err), c1, w1) => (Ret (Some err), c1, w1)
  | (Ret (FuncComplete, None), c1, w1) => (Ret None, c1, w1)
  | (Ret (_, None), c1, w1) =>
      match more with
      | O => (Ret (Some ErrMaxRetries), c1, w1)
      | S more' =>
          let currentDelay := Z.min (currentDelay * 2) maxDelay in
          attempts more' currentDelay c1 (emit (Wait currentDelay) w1)
      end
  end.
End Retry.

(** Modelled from the spec: [retryer.Retry] of pkg/util/retryer is not
    among the sources.  Section 4.4: the body is executed up to
    [maxRetries] times; an attempt that returns an error ends the loop
    with that error, whatever the signal (the comment in [retryOnLocks]
    says the same); [FuncComplete] ends it with success; a failure is
    followed by a wait that doubles from [minDelay] and is capped by
    [maxDelay].  The first attempt is made for every [maxRetries]. *)
Definition Retry {U C} (body : Body C (World U)) (maxRetries : Z)
    (minDelay maxDelay : time.Duration) (c : C) (w : World U)
  : Outcome (option error) * C * World U :=
  attempts body maxDelay (Z.to_nat (maxRetries - 1)) minDelay c w.
End retryer.

(** ** session.go *)

Record DatabaseConfig := { QueryRetries : Z }.

Record SQLStore := { engine : xorm.Engine; dbCfg : DatabaseConfig }.

(** The two methods of [migrator.Dialect] that [InsertId] calls; they run
    statements on the xorm session they are given. *)
Record Dialect := {
  PreInsertId : string -> ptr -> M xorm.DB (option error);
  PostInsertId : string -> ptr -> M xorm.DB (option error)
}.

(** [var ErrMaximumRetriesReached = errutil.NewBase(errutil.StatusInternal, "sqlstore.max-retries-reached")] *)
Definition ErrMaximumRetriesReached : errutil.Base :=
  errutil.NewBase errutil.StatusInternal "sqlstore.max-retries-reached".

Fixpoint type_name (t : GoType) : string :=
  match t with
  | Named name => name
  | Unnamed _ => ""
  | PtrTo elem => type_name elem
  end.

(** [getTypeName]: [reflect.TypeOf] of the nil interface is nil and its
    [Kind] panics. *)
Definition getTypeName {S} (bean : interface) : M S string :=
  match bean with
  | None => panic nil_deref
  | Some b => ret (type_name (dyn_type b))
  end.

(** The condition of the first [if] of [retryOnLocks]: [errors.As] finds
    a [sqlite3.Error] and its code is [ErrLocked] or [ErrBusy].  The
    answer carries the (then non-nil) error and the [sqlite3.Error]. *)
Definition lock_contention (err : option error) : option (error * sqlite3.Error) :=
  match err with
  | None => None
  | Some e =>
      match errors.As_sqlite3 e with
      | Some sqlError =>
          if (sqlite3.Code sqlError =? sqlite3.ErrLocked)
             || (sqlite3.Code sqlError =? sqlite3.ErrBusy)
          then Some (e, sqlError) else None
      | None => None
      end
  end.

Section sqlstore.
Context {U : Type}.
Variable dialect : Dialect.

Local Open Scope go_scope.

(** [sess.Session = x] *)
Definition set_Session (sess : ptr) (x : ptr) : M (Store U) unit :=
  s <- deref sess ;;
  assign sess {| Session := x; transactionOpen := transactionOpen s; events := events s |}.

(** [sess.events = append(sess.events, msg)] *)
Definition publishAfterCommit (sess : ptr) (msg : interface) : M (Store U) unit :=
  s <- deref sess ;;
  assign sess {| Session := Session s; transactionOpen := transactionOpen s;
                 events := events s ++ [msg] |}.

Definition PublishAfterCommit (sess : ptr) (msg : interface) : M (Store U) unit :=
  s <- deref sess ;;
  assign sess {| Session := Session s; transactionOpen := transactionOpen s;
                 events := events s ++ [msg] |}.

Definition startSessionOrUseExisting (ctx : context.Context) (engine : xorm.Engine)
    (beginTran : bool) : M (World U) (ptr * bool * option error) :=
  match context.Value ctx context.ContextSessionKey with
  | Some (context.DBSessionPtr sess) =>
      s <- on_store (deref sess) ;;
      _ <- log (LogDebug "sqlstore.session" "reusing existing session" (transactionOpen s)) ;;
      x <- on_store (on_db (xorm.Context (Session s) ctx)) ;;
      _ <- on_store (set_Session sess x) ;;
      ret (sess, false, None)
  | _ =>
      x <- on_store (on_db (xorm.NewSession engine)) ;;
      newSess <- on_store (new {| Session := x; transactionOpen := beginTran; events := [] |}) ;;
      err <- (if beginTran
              then s <- on_store (deref newSess) ;; on_store (on_db (xorm.Begin (Session s)))
              else ret None) ;;
      match err with
      | Some e => ret (None, false, Some e)
      | None =>
          s <- on_store (deref newSess) ;;
          x <- on_store (on_db (xorm.Context (Session s) ctx)) ;;
          _ <- on_store (set_Session newSess x) ;;
          ret (newSess, true, None)
      end
  end.

(** The closure [retryOnLocks] returns; [retry] is the variable it
    captures. *)
Definition retryOnLocks (ss : SQLStore) (ctx : context.Context)
    (callback : DBTransactionFunc U) (sess : ptr) : retryer.Body Z (World U) :=
  fun retry w =>
    let retry := int_wrap (retry + 1) in
    match invoke callback sess w with
    | (Panic msg, w1) => (Panic msg, retry, w1)
    | (Ret err, w1) =>
        match lock_contention err with
        | Some (e, sqlError) =>
            let w2 := emit (LogInfo "tsclogger" "Database locked, sleeping then retrying"
                              err retry (sqlite3.Code sqlError)) w1 in
            if retry =? QueryRetries (dbCfg ss)
            then (Ret (retryer.FuncError,
                       Some (Errorf ErrMaximumRetriesReached "retry %d: %w" [retry] e)),
                  retry, w2)
            else (Ret (retryer.FuncFailure, None), retry, w2)
        | None =>
            match err with
            | Some e => (Ret (retryer.FuncError, Some e), retry, w1)
            | None => (Ret (retryer.FuncComplete, None), retry, w1)
            end
        end
    end.

(** [retry := 0; return retryer.Retry(ss.retryOnLocks(ctx, callback, sess, retry),
    ss.dbCfg.QueryRetries, time.Millisecond*time.Duration(10), time.Second)] *)
Definition retry_callback (ss : SQLStore) (ctx : context.Context)
    (callback : DBTransactionFunc U) (sess : ptr) : M (World U) (option error) :=
  fun w =>
    let retry := 0 in
    let '(r, _, w') :=
      retryer.Retry (retryOnLocks ss ctx callback sess) (QueryRetries (dbCfg ss))
        (time.Millisecond * 10) time.Second retry w in
    (r, w').

(** [defer sess.Close()] calls the method promoted from the embedded
    [*xorm.Session]: its receiver [sess.Session] is read when the defer
    statement runs. *)
Definition WithNewDbSession (ss : SQLStore) (ctx : context.Context)
    (callback : DBTransactionFunc U) : M (World U) (option error) :=
  x <- on_store (on_db (xorm.NewSession (engine ss))) ;;
  sess <- on_store (new {| Session := x; transactionOpen := false; events := [] |}) ;;
  s <- on_store (deref sess) ;;
  defer (set_store (set_db (xorm.Close (Session s))))
        (retry_callback ss ctx callback sess).

(** The call is deferred only when the session is new. *)
Definition withDbSession (ss : SQLStore) (ctx : context.Context) (engine : xorm.Engine)
    (callback : DBTransactionFunc U) : M (World U) (option error) :=
  r <- startSessionOrUseExisting ctx engine false ;;
  let '(sess, isNew, err) := r in
  match err with
  | Some e => ret (Some e)
  | None =>
      if isNew : bool
      then s <- on_store (deref sess) ;;
           defer (set_store (set_db (xorm.Close (Session s))))
                 (retry_callback ss ctx callback sess)
      else retry_callback ss ctx callback sess
  end.

Definition WithDbSession (ss : SQLStore) (ctx : context.Context)
    (callback : DBTransactionFunc U) : M (World U) (option error) :=
  withDbSession ss ctx (engine ss) callback.

Definition InsertId (sess : ptr) (bean : interface) : M (Store U) (Z * option error) :=
  s <- deref sess ;;
  mapper <- on_db (xorm.DB_Mapper (Session s)) ;;
  name <- getTypeName bean ;;
  let table := xorm.Obj2Table mapper name in
  s <- deref sess ;;
  err <- on_db (PreInsertId dialect table (Session s)) ;;
  match err with
  | Some e => ret (0, Some e)
  | None =>
      s <- deref sess ;;
      r <- on_db (xorm.InsertOne (Session s) bean) ;;
      let '(id, err) := r in
      match err with
      | Some e => ret (0, Some e)
      | None =>
          s <- deref sess ;;
          err <- on_db (PostInsertId dialect table (Session s)) ;;
          match err with
          | Some e => ret (0, Some e)
          | None => ret (id, None)
          end
      end
  end.

End sqlstore.

(** ** Vocabulary of the statements *)

(** The context [ctx'] is derived from [ctx] without a new value for
    [ContextSessionKey]. *)
Inductive derived (ctx : context.Context) : context.Context -> Prop :=
| derived_refl : derived ctx ctx
| derived_cancel ctx' canceled :
    derived ctx ctx' -> derived ctx (context.WithCancel ctx' canceled)
| derived_value ctx' name val :
    derived ctx ctx' -> derived ctx (context.WithValue ctx' (context.OtherKey name) val).

(** [xorm.Session.Context(ctx)] applied to a session value. *)
Definition rebound (ctx : context.Context) (x : xorm.Session) : xorm.Session :=
  {| xorm.engine := xorm.engine x; xorm.ctx := Some ctx;
     xorm.inTx := xorm.inTx x; xorm.isClosed := xorm.isClosed x |}.

(** Number of calls of the callback in a trace. *)
Fixpoint invocations (t : list Event) : nat :=
  match t with
  | [] => 0
  | Invoke _ :: t' => S (invocations t')
  | _ :: t' => invocations t'
  end.

(** The sessions the callback was called on, in order. *)
Fixpoint invoked_on (t : list Event) : list ptr :=
  match t with
  | [] => []
  | Invoke sess :: t' => sess :: invoked_on t'
  | _ :: t' => invoked_on t'
  end.

(** The waits of the retryer in a trace, in order. *)
Fixpoint waits (t : list Event) : list time.Duration :=
  match t with
  | [] => []
  | Wait d :: t' => d :: waits t'
  | _ :: t' => waits t'
  end.

Section vocabulary.
Context {U : Type}.

(** The context carries the [DBSession] at address [sess], whose handle
    is the xorm session at address [xl]. *)
Definition carries (ctx : context.Context) (w : World U) (sess xl : loc) : Prop :=
  context.Value ctx context.ContextSessionKey = Some (context.DBSessionPtr (Some sess))
  /\ exists v x, heap (store w) !! sess = Some v
                 /\ Session v = Some xl
                 /\ xorm.sessions (db (store w)) !! xl = Some x.

(** The context has no [*DBSession] under [ContextSessionKey]. *)
Definition fresh_context (ctx : context.Context) : Prop :=
  forall p, context.Value ctx context.ContextSessionKey <> Some (context.DBSessionPtr p).

(** The store after [k] calls of the callback. *)
Fixpoint after_attempts (k : nat) (callback : DBTransactionFunc U) (sess : ptr)
    (s : Store U) : Store U :=
  match k with
  | O => s
  | S k' => after_attempts k' callback sess (callback sess s).2
  end.

(** The store right after [WithNewDbSession] made its session. *)
Definition with_new_session (e : xorm.Engine) (s : Store U) : Store U :=
  let xl := fresh (dom (xorm.sessions (db s))) in
  let x := {| xorm.engine := e; xorm.ctx := None; xorm.inTx := false;
              xorm.isClosed := false |} in
  set_heap (insert (fresh (dom (heap s)))
              {| Session := Some xl; transactionOpen := false; events := [] |})
    (set_db (fun _ => xorm.set_sessions (insert xl x) (db s)) s).
(** The world after an acquisition that found the session [sess] with the
    handle [xl] on the context. *)
Definition reused (ctx : context.Context) (sess xl : loc) (v : DBSession)
    (x : xorm.Session) (w : World U) : World U :=
  {| store :=
       set_heap (insert sess v)
         (set_db (fun _ => xorm.set_sessions (insert xl (rebound ctx x)) (db (store w)))
                 (store w));
     trace := trace w ++ [LogDebug "sqlstore.session" "reusing existing session"
                                   (transactionOpen v)] |}.

(** The world after an acquisition that made a new session. *)
Definition created (ctx : context.Context) (engine : xorm.Engine) (beginTran : bool)
    (w : World U) : World U :=
  let xl := fresh (dom (xorm.sessions (db (store w)))) in
  let x := {| xorm.engine := engine; xorm.ctx := Some ctx; xorm.inTx := beginTran;
              xorm.isClosed := false |} in
  {| store :=
       set_heap (insert (fresh (dom (heap (store w))))
                   {| Session := Some xl; transactionOpen := beginTran; events := [] |})
         (set_db (fun _ => xorm.set_sessions (insert xl x) (db (store w))) (store w));
     trace := trace w |}.

(** The world after the callback was called on [sess] and left the store
    [s']. *)
Definition called (sess : ptr) (s' : Store U) (w : World U) : World U :=
  {| store := s'; trace := trace w ++ [Invoke sess] |}.

(** The calls [sess.PublishAfterCommit(msg)] for the messages of a list,
    one after the other. *)
Fixpoint publish_each (sess : ptr) (msgs : list interface) : M (Store U) unit :=
  match msgs with
  | [] => ret tt
  | msg :: msgs' => bind (PublishAfterCommit sess msg) (fun _ => publish_each sess msgs')
  end.

(** What an acquisition may change: the context a handle is bound to,
    and the trace by one debug line.  Rows, driver answers, the
    callback's variables, every [DBSession] that was there and the
    engine, transaction and closed state of every handle that was there
    stay. *)
Definition acquisition_frame (w w' : World U) : Prop :=
  xorm.rows (db (store w')) = xorm.rows (db (store w))
  /\ xorm.begin_fault (db (store w')) = xorm.begin_fault (db (store w))
  /\ xorm.insert_fault (db (store w')) = xorm.insert_fault (db (store w))
  /\ user (store w') = user (store w)
  /\ (forall (l : loc) v, heap (store w) !! l = Some v -> heap (store w') !! l = Some v)
  /\ (forall (xl : loc) x, xorm.sessions (db (store w)) !! xl = Some x ->
        exists x', xorm.sessions (db (store w')) !! xl = Some x'
                   /\ xorm.engine x' = xorm.engine x
                   /\ xorm.inTx x' = xorm.inTx x
                   /\ xorm.isClosed x' = xorm.isClosed x)
  /\ exists t, trace w' = trace w ++ t /\ (length t <= 1)%nat /\ invoked_on t = [].

(** The world after an acquisition whose [Begin] failed. *)
Definition begin_failed (engine : xorm.Engine) (w : World U) : World U :=
  let xl := fresh (dom (xorm.sessions (db (store w)))) in
  let x := {| xorm.engine := engine; xorm.ctx := None; xorm.inTx := false;
              xorm.isClosed := false |} in
  {| store :=
       set_heap (insert (fresh (dom (heap (store w))))
                   {| Session := Some xl; transactionOpen := true; events := [] |})
         (set_db (fun _ => xorm.set_sessions (insert xl x) (db (store w))) (store w));
     trace := trace w |}.
End vocabulary.

(** The sentence on the post-insert hook as the specification has it:
    when the hook fails after a successful insert, [InsertId] hands the
    identifier the insert step generated to its caller. *)
Definition post_hook_failure_returns_id : Prop :=
  forall (dialect : Dialect) (s : Store unit) (l xl : loc) (v : DBSession)
         (x x1 : xorm.Session) (b : Iface) (e : error) (d1 d3 : xorm.DB),
    heap s !! l = Some v ->
    Session v = Some xl ->
    xorm.sessions (db s) !! xl = Some x ->
    let table := xorm.Obj2Table (xorm.mapper (xorm.engine x)) (type_name (dyn_type b)) in
    let id := Z.of_nat (length (xorm.rows d1)) + 1 in
    PreInsertId dialect table (Some xl) (db s) = (Ret None, d1) ->
    xorm.sessions d1 !! xl = Some x1 ->
    xorm.insert_fault d1 = None ->
    PostInsertId dialect table (Some xl)
      (xorm.set_rows (fun rs => rs ++ [(b, id)]) d1) = (Ret (Some e), d3) ->
    (InsertId dialect (Some l) (Some b) s).1 = Ret (id, Some e).

(** [fmt.Errorf("...: %w", err)] applied once for every message of the
    list, the first message outermost. *)
Fixpoint wrap_all (msgs : list string) (e : error) : error :=
  match msgs with
  | [] => e
  | msg :: msgs' => FmtWrap msg (wrap_all msgs' e)
  end.

(** The waits of [n] failures in a row when the last delay was [d]. *)
Fixpoint backoffs (n : nat) (d maxDelay : time.Duration) : list time.Duration :=
  match n with
  | O => []
  | S n' => let d' := Z.min (d * 2) maxDelay in d' :: backoffs n' d' maxDelay
  end.

(** ** routes/metrics.go *)

Module routes.
(** The values of [resources.MetricsRequestType] the handler names, and
    any other. *)
Inductive MetricsRequestType :=
| AllMetricsRequestType
| MetricsByNamespaceRequestType
| CustomNamespaceRequestType
| OtherRequestType (n : Z).

Definition StatusBadRequest : Z := 400.
Definition StatusInternalServerError : Z := 500.

(** What [MetricsHandler] calls; none of it is among the sources.  [Req]
    is the parsed request, [Svc] the list-metrics service, [Metrics] the
    type [[]resources.Metric] with its nil slice, [Bytes] a byte slice. *)
Record Env (Params PluginContext Factory Req Svc Metrics Bytes HttpError : Type) := {
  GetMetricsRequest : Params -> Req * option error;
  Region : Req -> string;
  Namespace : Req -> string;
  Type_ : Req -> MetricsRequestType;
  newListMetricsService : PluginContext -> Factory -> string -> Svc * option error;
  GetAllHardCodedMetrics : Metrics;
  GetHardCodedMetricsByNamespace : string -> Metrics * option error;
  GetMetricsByNamespace : Svc -> string -> Metrics * option error;
  nil_metrics : Metrics;
  Marshal : Metrics -> Bytes * option error;
  NewHttpError : string -> Z -> error -> HttpError
}.
Arguments GetMetricsRequest {_ _ _ _ _ _ _ _} _.
Arguments Region {_ _ _ _ _ _ _ _} _.
Arguments Namespace {_ _ _ _ _ _ _ _} _.
Arguments Type_ {_ _ _ _ _ _ _ _} _.
Arguments newListMetricsService {_ _ _ _ _ _ _ _} _.
Arguments GetAllHardCodedMetrics {_ _ _ _ _ _ _ _} _.
Arguments GetHardCodedMetricsByNamespace {_ _ _ _ _ _ _ _} _.
Arguments GetMetricsByNamespace {_ _ _ _ _ _ _ _} _.
Arguments nil_metrics {_ _ _ _ _ _ _ _} _.
Arguments Marshal {_ _ _ _ _ _ _ _} _.
Arguments NewHttpError {_ _ _ _ _ _ _ _} _.

Section MetricsHandler.
Context {Params PluginContext Factory Req Svc Metrics Bytes HttpError : Type}.
Variable env : Env Params PluginContext Factory Req Svc Metrics Bytes HttpError.

(** The result is the pair the Go function returns: the response, nil on
    an error, and the error, nil on success. *)
Definition MetricsHandler (pluginCtx : PluginContext) (reqCtxFactory : Factory)
    (parameters : Params) : option Bytes * option HttpError :=
  let '(metricsRequest, err) := GetMetricsRequest env parameters in
  match err with
  | Some e => (None, Some (NewHttpError env "error in MetricsHandler" StatusBadRequest e))
  | None =>
      let '(service, err) :=
        newListMetricsService env pluginCtx reqCtxFactory (Region env metricsRequest) in
      match err with
      | Some e =>
          (None, Some (NewHttpError env "error in MetricsHandler"
                         StatusInternalServerError e))
      | None =>
          let '(metrics, err) :=
            match Type_ env metricsRequest with
            | AllMetricsRequestType => (GetAllHardCodedMetrics env, None)
            | MetricsByNamespaceRequestType =>
                GetHardCodedMetricsByNamespace env (Namespace env metricsRequest)
            | CustomNamespaceRequestType =>
                GetMetricsByNamespace env service (Namespace env metricsRequest)
            | OtherRequestType _ => (nil_metrics env, None)
            end in
          match err with
          | Some e =>
              (None, Some (NewHttpError env "error in MetricsHandler"
                             StatusInternalServerError e))
          | None =>
              let '(metricsResponse, err) := Marshal env metrics in
              match err with
              | Some e =>
                  (None, Some (NewHttpError env "error in MetricsHandler"
                                 StatusInternalServerError e))
              | None => (Some metricsResponse, None)
              end
          end
      end
  end.
(** The result answers a listing: the error of the listing, or else of
    marshalling what was listed, with status 500; otherwise the
    marshalled list. *)
Definition answers (result : option Bytes * option HttpError)
    (listed : Metrics * option error) : Prop :=
  match listed with
  | (_, Some e) =>
      result = (None, Some (NewHttpError env "error in MetricsHandler"
                              StatusInternalServerError e))
  | (metrics, None) =>
      forall body,
        (forall e, Marshal env metrics = (body, Some e) ->
           result = (None, Some (NewHttpError env "error in MetricsHandler"
                                   StatusInternalServerError e)))
        /\ (Marshal env metrics = (body, None) -> result = (Some body, None))
  end.
End MetricsHandler.
End routes.

(** ** Cancellation *)


(** ** Sample data *)

Module sample.
Definition eng : xorm.Engine := {| xorm.mapper := {| xorm.Obj2Table := fun name => name |} |}.

Definition ss5 : SQLStore := {| engine := eng; dbCfg := {| QueryRetries := 5 |} |}.

Definition db_empty : xorm.DB :=
  {| xorm.sessions := ∅; xorm.rows := []; xorm.begin_fault := None;
     xorm.insert_fault := None |}.

Definition w_empty : World unit :=
  {| store := {| db := db_empty; heap := ∅; user := tt |}; trace := [] |}.

Definition x0 : xorm.Session :=
  {| xorm.engine := eng; xorm.ctx := None; xorm.inTx := false; xorm.isClosed := false |}.

Definition v0 : DBSession :=
  {| Session := Some 0%nat; transactionOpen := false; events := [] |}.

Definition db_live : xorm.DB :=
  {| xorm.sessions := {[ 0%nat := x0 ]}; xorm.rows := []; xorm.begin_fault := None;
     xorm.insert_fault := None |}.

(** A store with one [DBSession] at address 0 on the xorm session 0. *)
Definition s_live : Store unit := {| db := db_live; heap := {[ 0%nat := v0 ]}; user := tt |}.

Definition w_live : World unit := {| store := s_live; trace := [] |}.

(** A context in which [InTransaction] has put the session at address 0. *)
Definition ctx_live : context.Context :=
  context.WithValue context.Background context.ContextSessionKey
    (context.DBSessionPtr (Some 0%nat)).

Definition locked : error :=
  SqliteError {| sqlite3.Code := sqlite3.ErrLocked; sqlite3.ExtendedCode := 0 |}.

Definition constraint : error :=
  SqliteError {| sqlite3.Code := 19; sqlite3.ExtendedCode := 2067 |}.

Definition cb_locked : DBTransactionFunc unit := fun _ s => (Ret (Some locked), s).

Definition cb_constraint : DBTransactionFunc unit := fun _ s => (Ret (Some constraint), s).

Definition cb_ok : DBTransactionFunc unit := fun _ s => (Ret None, s).

Definition cb_panics : DBTransactionFunc unit := fun _ s => (Panic "index out of range", s).

(** A callback that counts its calls in the variable it closes over and
    reports a busy database on the first two. *)
Definition cb_busy_twice : DBTransactionFunc nat :=
  fun _ s =>
    let n := user s in
    let s' := {| db := db s; heap := heap s; user := S n |} in
    if (n <? 2)%nat
    then (Ret (Some (SqliteError {| sqlite3.Code := sqlite3.ErrBusy;
                                    sqlite3.ExtendedCode := 0 |})), s')
    else (Ret None, s').

Definition w_counter : World nat :=
  {| store := {| db := db_empty; heap := ∅; user := 0%nat |}; trace := [] |}.

Definition hook_error : error := OpaqueError "SET IDENTITY_INSERT failed".

Definition dialect_plain : Dialect :=
  {| PreInsertId := fun _ _ => ret None; PostInsertId := fun _ _ => ret None |}.

Definition dialect_pre_fails : Dialect :=
  {| PreInsertId := fun _ _ => ret (Some hook_error);
     PostInsertId := fun _ _ => ret None |}.

Definition dialect_post_fails : Dialect :=
  {| PreInsertId := fun _ _ => ret None;
     PostInsertId := fun _ _ => ret (Some hook_error) |}.

Definition bean : Iface := {| dyn_type := PtrTo (Named "User"); dyn_val := 42 |}.

Definition msg_a : interface := Some {| dyn_type := Named "UserCreated"; dyn_val := 1 |}.

Definition msg_b : interface := Some {| dyn_type := Named "UserUpdated"; dyn_val := 2 |}.
End sample.

Module sample_edge.
(** No retries configured. *)
Definition ss0 : SQLStore := {| engine := sample.eng; dbCfg := {| QueryRetries := 0 |} |}.

Definition driver_error : error := OpaqueError "driver: bad connection".

Definition db_insert_fails : xorm.DB :=
  {| xorm.sessions := {[ 0%nat := sample.x0 ]}; xorm.rows := [];
     xorm.begin_fault := None; xorm.insert_fault := Some driver_error |}.

Definition s_insert_fails : Store unit :=
  {| db := db_insert_fails; heap := {[ 0%nat := sample.v0 ]}; user := tt |}.

Definition w_begin_fails : World unit :=
  {| store := {| db := {| xorm.sessions := ∅; xorm.rows := [];
                          xorm.begin_fault := Some driver_error;
                          xorm.insert_fault := None |};
                 heap := ∅; user := tt |};
     trace := [] |}.

(** A database that holds one row already. *)
Definition db_one_row : xorm.DB :=
  {| xorm.sessions := {[ 0%nat := sample.x0 ]}; xorm.rows := [(sample.bean, 1)];
     xorm.begin_fault := None; xorm.insert_fault := None |}.

Definition s_one_row : Store unit :=
  {| db := db_one_row; heap := {[ 0%nat := sample.v0 ]}; user := tt |}.


(** Collaborators of [MetricsHandler]: the parameter is the namespace,
    "bad" does not parse, the empty namespace asks for all metrics, an
    AWS namespace for the hard-coded ones, and the service is throttled. *)
Definition metrics_env
  : routes.Env string unit unit string unit (list string) string (string * Z * error) :=
  {| routes.GetMetricsRequest :=
       fun p => (p, if String.eqb p "bad" then Some (OpaqueError "bad parameters") else None);
     routes.Region := fun _ => "us-east-1";
     routes.Namespace := fun req => req;
     routes.Type_ :=
       fun req => if String.eqb req "" then routes.AllMetricsRequestType
                  else if String.prefix "AWS/" req
                       then routes.MetricsByNamespaceRequestType
                       else routes.CustomNamespaceRequestType;
     routes.newListMetricsService := fun _ _ _ => (tt, None);
     routes.GetAllHardCodedMetrics := ["CPUUtilization"; "Latency"];
     routes.GetHardCodedMetricsByNamespace := fun _ => (["CPUUtilization"], None);
     routes.GetMetricsByNamespace := fun _ _ => ([], Some (OpaqueError "throttled"));
     routes.nil_metrics := [];
     routes.Marshal := fun ms => (String.concat "," ms, None);
     routes.NewHttpError := fun msg status e => (msg, status, e) |}.

(** A context that holds a nil [*DBSession] under the session key. *)
Definition ctx_nil : context.Context :=
  context.WithValue context.Background context.ContextSessionKey
    (context.DBSessionPtr None).

(** A context derived from [sample.ctx_live], as [context.WithCancel]
    makes it. *)
Definition ctx_child : context.Context := context.WithCancel sample.ctx_live false.

Definition busy : error :=
  SqliteError {| sqlite3.Code := sqlite3.ErrBusy; sqlite3.ExtendedCode := 0 |}.
End sample_edge.

(** ** Properties *)

Section properties.
Context {U : Type}.
Variable dialect : Dialect.

Implicit Types (s : Store U) (w : World U) (ctx : context.Context).

(** Unfold the state operations and evaluate lookups at addresses just
    written. *)
Ltac run :=
  repeat (progress (unfold bind, ret, panic, gets, modify, defer, log, on_store, on_db,
                      deref, assign, new, set_Session,
                      xorm.load, xorm.update, xorm.NewSession, xorm.Context, xorm.Begin,
                      xorm.DB_Mapper, xorm.InsertOne;
                    simpl; rewrite ?lookup_insert_eq)).

Lemma deref_live s (l : loc) (v : DBSession) :
  heap s !! l = Some v -> deref (Some l) s = (Ret v, s).
Proof. intros H. unfold deref. now rewrite H. Qed.

Lemma load_live (d : xorm.DB) (l : loc) (x : xorm.Session) :
  xorm.sessions d !! l = Some x -> xorm.load (Some l) d = (Ret x, d).
Proof. intros H. unfold xorm.load. now rewrite H. Qed.

Lemma set_db_id s : set_db (fun _ => db s) s = s.
Proof. now destruct s. Qed.

Lemma set_store_id w : set_store (fun _ => store w) w = w.
Proof. now destruct w. Qed.

Lemma Value_derived ctx ctx' :
  derived ctx ctx' ->
  context.Value ctx' context.ContextSessionKey = context.Value ctx context.ContextSessionKey.
Proof. induction 1; simpl; auto. Qed.

(** Appending to the queue of a live session. *)
Lemma PublishAfterCommit_live s (l : loc) (v : DBSession) (msg : interface) :
  heap s !! l = Some v ->
  PublishAfterCommit (Some l) msg s =
    (Ret tt, set_heap (insert l {| Session := Session v;
                                   transactionOpen := transactionOpen v;
                                   events := events v ++ [msg] |}) s).
Proof.
  intros H. unfold PublishAfterCommit, bind. now rewrite (deref_live _ _ _ H).
Qed.

(** C7: registering an event on a session appends it to the end of the
    pending events and keeps the session's other fields and the events
    queued before; two events registered one after the other are found
    in the order of their registration. *)
Theorem PublishAfterCommit_keeps_order s (l : loc) (v : DBSession) (a b : interface) :
  heap s !! l = Some v ->
  exists s1 s2 v1 v2,
    PublishAfterCommit (Some l) a s = (Ret tt, s1)
    /\ PublishAfterCommit (Some l) b s1 = (Ret tt, s2)
    /\ heap s1 !! l = Some v1 /\ events v1 = events v ++ [a]
    /\ heap s2 !! l = Some v2 /\ events v2 = events v ++ [a; b]
    /\ Session v2 = Session v /\ transactionOpen v2 = transactionOpen v
    /\ (forall l', l' <> l -> heap s2 !! l' = heap s !! l')
    /\ db s2 = db s.
Proof.
  intros H.
  pose proof (PublishAfterCommit_live s l v a H) as H1.
  set (v1 := {| Session := Session v; transactionOpen := transactionOpen v;
                events := events v ++ [a] |}) in *.
  set (s1 := set_heap (insert l v1) s) in *.
  assert (Hs1 : heap s1 !! l = Some v1) by (subst s1; simpl; apply lookup_insert_eq).
  pose proof (PublishAfterCommit_live s1 l v1 b Hs1) as H2.
  eexists s1, _, v1, _. split; [exact H1|]. split; [exact H2|].
  split; [exact Hs1|]. split; [reflexivity|].
  split; [simpl; apply lookup_insert_eq|].
  split; [simpl; now rewrite <- app_assoc|].
  split; [reflexivity|]. split; [reflexivity|].
  split; [|reflexivity].
  intros l' Hne. simpl. rewrite !lookup_insert_ne by congruence. reflexivity.
Qed.

Lemma start_reuse ctx (engine : xorm.Engine) (beginTran : bool) w
    (sess xl : loc) (v : DBSession) (x : xorm.Session) :
  context.Value ctx context.ContextSessionKey = Some (context.DBSessionPtr (Some sess)) ->
  heap (store w) !! sess = Some v ->
  Session v = Some xl ->
  xorm.sessions (db (store w)) !! xl = Some x ->
  startSessionOrUseExisting ctx engine beginTran w
  = (Ret (Some sess, false, None), reused ctx sess xl v x w).
Proof.
  intros Hctx Hv Hx Hxl.
  unfold startSessionOrUseExisting. rewrite Hctx.
  unfold bind, on_store at 1. rewrite (deref_live _ _ _ Hv), set_store_id.
  unfold log, modify, on_store, on_db, xorm.Context, xorm.update, bind.
  simpl. rewrite Hx, (load_live _ _ _ Hxl). simpl.
  unfold set_Session, bind. simpl. rewrite Hv. simpl.
  unfold reused. destruct v as [vs vt ve]; simpl in *. subst vs. reflexivity.
Qed.

Lemma carries_reused ctx ctx' w (sess xl : loc) (v : DBSession) (x : xorm.Session) :
  context.Value ctx' context.ContextSessionKey = Some (context.DBSessionPtr (Some sess)) ->
  Session v = Some xl ->
  carries ctx' (reused ctx sess xl v x w) sess xl.
Proof.
  intros Hctx Hx. split; [exact Hctx|].
  exists v, (rebound ctx x). simpl. rewrite !lookup_insert_eq. auto.
Qed.

(** C3: when the context carries a session, acquisition returns the
    address of that very session and [false]; the session value is as it
    was, its handle is the same xorm session, now bound to the current
    context; nothing else in the store changes, and every context derived
    from this one carries the same session afterwards, so that all later
    acquisitions of the call chain return it again. *)
Theorem startSessionOrUseExisting_reuses ctx (engine : xorm.Engine) (beginTran : bool) w
    (sess xl : loc) :
  carries ctx w sess xl ->
  exists v x w',
    startSessionOrUseExisting ctx engine beginTran w = (Ret (Some sess, false, None), w')
    /\ heap (store w) !! sess = Some v
    /\ heap (store w') !! sess = Some v
    /\ Session v = Some xl
    /\ xorm.sessions (db (store w)) !! xl = Some x
    /\ xorm.sessions (db (store w')) !! xl = Some (rebound ctx x)
    /\ (forall l, l <> sess -> heap (store w') !! l = heap (store w) !! l)
    /\ (forall l, l <> xl ->
          xorm.sessions (db (store w')) !! l = xorm.sessions (db (store w)) !! l)
    /\ xorm.rows (db (store w')) = xorm.rows (db (store w))
    /\ user (store w') = user (store w)
    /\ (forall ctx', derived ctx ctx' -> carries ctx' w' sess xl).
Proof.
  intros [Hctx (v & x & Hv & Hx & Hxl)].
  exists v, x, (reused ctx sess xl v x w).
  split; [now apply start_reuse|].
  split; [exact Hv|]. split; [simpl; apply lookup_insert_eq|].
  split; [exact Hx|]. split; [exact Hxl|].
  split; [simpl; apply lookup_insert_eq|].
  split; [intros l Hl; simpl; now rewrite lookup_insert_ne by congruence|].
  split; [intros l Hl; simpl; now rewrite lookup_insert_ne by congruence|].
  split; [reflexivity|]. split; [reflexivity|].
  intros ctx' Hd. apply carries_reused; [|exact Hx].
  now rewrite (Value_derived _ _ Hd).
Qed.

(** C10: with a session on the context the flag [beginTran] is not
    looked at: both values give the same result and the same world; no
    transaction is begun on the handle, and the session keeps its
    [transactionOpen] flag and its queue of events, also when a
    transaction was asked for and [transactionOpen] is [false]. *)
Theorem startSessionOrUseExisting_reuse_ignores_beginTran ctx (engine : xorm.Engine) w
    (sess xl : loc) :
  carries ctx w sess xl ->
  startSessionOrUseExisting ctx engine true w = startSessionOrUseExisting ctx engine false w
  /\ exists v x w',
       startSessionOrUseExisting ctx engine true w = (Ret (Some sess, false, None), w')
       /\ heap (store w) !! sess = Some v
       /\ xorm.sessions (db (store w)) !! xl = Some x
       /\ (transactionOpen <$> heap (store w') !! sess) = Some (transactionOpen v)
       /\ (events <$> heap (store w') !! sess) = Some (events v)
       /\ (xorm.inTx <$> xorm.sessions (db (store w')) !! xl) = Some (xorm.inTx x).
Proof.
  intros [Hctx (v & x & Hv & Hx & Hxl)]. split.
  - now rewrite !(start_reuse ctx engine _ w sess xl v x).
  - exists v, x, (reused ctx sess xl v x w).
    split; [now apply start_reuse|].
    split; [exact Hv|]. split; [exact Hxl|]. simpl. rewrite !lookup_insert_eq.
    repeat split.
Qed.

Lemma fresh_heap s : heap s !! fresh (dom (heap s)) = None.
Proof. apply not_elem_of_dom, is_fresh. Qed.

Lemma fresh_session (d : xorm.DB) : xorm.sessions d !! fresh (dom (xorm.sessions d)) = None.
Proof. apply not_elem_of_dom, is_fresh. Qed.

(** On a context without a session the second half of
    [startSessionOrUseExisting] runs. *)
Lemma start_fresh_branch ctx (engine : xorm.Engine) (b : bool) w :
  fresh_context ctx ->
  startSessionOrUseExisting ctx engine b w
  = bind (on_store (on_db (xorm.NewSession engine))) (fun x =>
    bind (on_store (new {| Session := x; transactionOpen := b; events := [] |}))
      (fun newSess =>
    bind (if b
          then bind (on_store (deref newSess))
                 (fun v => on_store (on_db (xorm.Begin (Session v))))
          else ret None) (fun err =>
      match err with
      | Some e => ret (None, false, Some e)
      | None =>
          bind (on_store (deref newSess)) (fun v =>
          bind (on_store (on_db (xorm.Context (Session v) ctx))) (fun x =>
          bind (on_store (set_Session newSess x)) (fun _ =>
          ret (newSess, true, None))))
      end))) w.
Proof.
  intros Hfresh. unfold startSessionOrUseExisting.
  destruct (context.Value ctx context.ContextSessionKey) as [[p|tag]|] eqn:E;
    [exfalso; exact (Hfresh p E)|reflexivity|reflexivity].
Qed.

Lemma start_fresh ctx (engine : xorm.Engine) (beginTran : bool) w :
  fresh_context ctx ->
  beginTran = false \/ xorm.begin_fault (db (store w)) = None ->
  startSessionOrUseExisting ctx engine beginTran w
  = (Ret (Some (fresh (dom (heap (store w)))), true, None), created ctx engine beginTran w).
Proof.
  intros Hfresh Hok. rewrite (start_fresh_branch _ _ _ _ Hfresh). unfold created.
  destruct beginTran.
  - destruct Hok as [Hok|Hok]; [discriminate|].
    run. rewrite Hok. run.
    unfold set_store, set_heap, set_db, xorm.set_sessions. simpl.
    now rewrite !insert_insert_eq.
  - run. unfold set_store, set_heap, set_db, xorm.set_sessions. simpl.
    now rewrite !insert_insert_eq.
Qed.

(** C4: on a context without a session, acquisition allocates a new xorm
    session and a new [DBSession] and returns it with [true]; its
    [transactionOpen] is the flag asked for and, when a transaction was
    asked for, one has been begun on the handle, which is bound to the
    context.  When [Begin] fails, the result is its error, no session and
    [false]. *)
Theorem startSessionOrUseExisting_creates ctx (engine : xorm.Engine) (beginTran : bool) w :
  fresh_context ctx ->
  let xl := fresh (dom (xorm.sessions (db (store w)))) in
  let l := fresh (dom (heap (store w))) in
  ((beginTran = false \/ xorm.begin_fault (db (store w)) = None) ->
   exists w',
     startSessionOrUseExisting ctx engine beginTran w = (Ret (Some l, true, None), w')
     /\ heap (store w) !! l = None
     /\ xorm.sessions (db (store w)) !! xl = None
     /\ heap (store w') !! l
        = Some {| Session := Some xl; transactionOpen := beginTran; events := [] |}
     /\ xorm.sessions (db (store w')) !! xl
        = Some {| xorm.engine := engine; xorm.ctx := Some ctx;
                  xorm.inTx := beginTran; xorm.isClosed := false |}
     /\ (forall l', l' <> l -> heap (store w') !! l' = heap (store w) !! l')
     /\ (forall l', l' <> xl ->
           xorm.sessions (db (store w')) !! l' = xorm.sessions (db (store w)) !! l')
     /\ trace w' = trace w)
  /\ (forall e, beginTran = true -> xorm.begin_fault (db (store w)) = Some e ->
      (startSessionOrUseExisting ctx engine beginTran w).1 = Ret (None, false, Some e)).
Proof.
  intros Hfresh xl l. split.
  - intros Hok. exists (created ctx engine beginTran w).
    split; [now apply start_fresh|].
    split; [apply fresh_heap|]. split; [apply fresh_session|].
    unfold created. simpl. fold xl. fold l. rewrite !lookup_insert_eq.
    repeat split; auto; intros l' Hne; now rewrite lookup_insert_ne by congruence.
  - intros e -> Hfault. rewrite (start_fresh_branch _ _ _ _ Hfresh).
    run. now rewrite Hfault.
Qed.

Lemma int_wrap_small (z : Z) : - 2 ^ 63 <= z < 2 ^ 63 -> int_wrap z = z.
Proof. intros H. unfold int_wrap. rewrite Z.mod_small; lia. Qed.

Lemma invocations_app (t t' : list Event) :
  invocations (t ++ t') = (invocations t + invocations t')%nat.
Proof.
  induction t as [|e t IH]; simpl; [reflexivity|].
  destruct e; simpl; rewrite IH; reflexivity.
Qed.

Lemma invoke_called (callback : DBTransactionFunc U) (sess : ptr) w
    (r : Outcome (option error)) (s' : Store U) :
  callback sess (store w) = (r, s') -> invoke callback sess w = (r, called sess s' w).
Proof. intros H. unfold invoke. run. now rewrite H. Qed.

(** An attempt that ends in another error than lock contention: the
    closure returns [FuncError] with that very error and logs nothing. *)
Lemma retryOnLocks_other_error (ss : SQLStore) ctx (callback : DBTransactionFunc U)
    (sess : ptr) (retry : Z) w (e : error) (s' : Store U) :
  callback sess (store w) = (Ret (Some e), s') ->
  lock_contention (Some e) = None ->
  retryOnLocks ss ctx callback sess retry w
  = (Ret (retryer.FuncError, Some e), int_wrap (retry + 1), called sess s' w).
Proof.
  intros Hcb Hno. unfold retryOnLocks.
  rewrite (invoke_called _ _ _ _ _ Hcb), Hno. reflexivity.
Qed.

(** An attempt that ends in lock contention. *)
Lemma retryOnLocks_locked (ss : SQLStore) ctx (callback : DBTransactionFunc U)
    (sess : ptr) (retry : Z) w (e : error) (sqlError : sqlite3.Error) (s' : Store U) :
  callback sess (store w) = (Ret (Some e), s') ->
  lock_contention (Some e) = Some (e, sqlError) ->
  let retry' := int_wrap (retry + 1) in
  let w' := emit (LogInfo "tsclogger" "Database locked, sleeping then retrying"
                    (Some e) retry' (sqlite3.Code sqlError)) (called sess s' w) in
  retryOnLocks ss ctx callback sess retry w
  = if retry' =? QueryRetries (dbCfg ss)
    then (Ret (retryer.FuncError,
               Some (Errorf ErrMaximumRetriesReached "retry %d: %w" [retry'] e)),
          retry', w')
    else (Ret (retryer.FuncFailure, None), retry', w').
Proof.
  intros Hcb Hlock. unfold retryOnLocks.
  rewrite (invoke_called _ _ _ _ _ Hcb), Hlock. reflexivity.
Qed.

(** C2: when the callback fails with an error that is not a sqlite
    locked or busy error, the retry executor calls it once, waits for
    nothing, logs nothing and returns that error as it is. *)
Theorem retry_returns_other_error_at_once (ss : SQLStore) ctx
    (callback : DBTransactionFunc U) (sess : ptr) w (e : error) (s' : Store U) :
  callback sess (store w) = (Ret (Some e), s') ->
  lock_contention (Some e) = None ->
  retryer.Retry (retryOnLocks ss ctx callback sess) (QueryRetries (dbCfg ss))
    (time.Millisecond * 10) time.Second 0 w
  = (Ret (Some e), 1, called sess s' w)
  /\ retry_callback ss ctx callback sess w = (Ret (Some e), called sess s' w)
  /\ invocations (trace (called sess s' w)) = S (invocations (trace w))
  /\ waits (trace (called sess s' w)) = waits (trace w).
Proof.
  intros Hcb Hno.
  assert (HR : retryer.Retry (retryOnLocks ss ctx callback sess) (QueryRetries (dbCfg ss))
                 (time.Millisecond * 10) time.Second 0 w
               = (Ret (Some e), 1, called sess s' w)).
  { unfold retryer.Retry.
    destruct (Z.to_nat (QueryRetries (dbCfg ss) - 1)); simpl;
      rewrite (retryOnLocks_other_error ss ctx callback sess 0 w e s' Hcb Hno);
      reflexivity. }
  split; [exact HR|]. split.
  - unfold retry_callback. now rewrite HR.
  - unfold called. simpl. split.
    + rewrite invocations_app. simpl. lia.
    + induction (trace w) as [|ev t IH]; simpl; [reflexivity|].
      destruct ev; simpl; congruence.
Qed.



Lemma invoked_on_app (t t' : list Event) :
  invoked_on (t ++ t') = invoked_on t ++ invoked_on t'.
Proof.
  induction t as [|e t IH]; simpl; [reflexivity|].
  destruct e; simpl; rewrite IH; reflexivity.
Qed.

(** One call of the closure: the callback runs once on [sess]; besides,
    the closure only logs. *)
Lemma retryOnLocks_effect (ss : SQLStore) ctx (callback : DBTransactionFunc U)
    (sess : ptr) (retry : Z) w :
  store (retryOnLocks ss ctx callback sess retry w).2 = (callback sess (store w)).2
  /\ invoked_on (trace (retryOnLocks ss ctx callback sess retry w).2)
     = invoked_on (trace w) ++ [sess].
Proof.
  unfold retryOnLocks.
  destruct (callback sess (store w)) as [r s'] eqn:Hcb.
  rewrite (invoke_called _ _ _ _ _ Hcb).
  destruct r as [err|msg]; [|simpl; now rewrite invoked_on_app].
  destruct (lock_contention err) as [[e sqlError]|].
  - destruct (_ =? _); simpl; rewrite !invoked_on_app; simpl; now rewrite app_nil_r.
  - destruct err; simpl; now rewrite invoked_on_app.
Qed.

(** The retry loop: the callback runs [k] times on [sess], one after the
    other, for some [k] between 1 and the number of attempts allowed;
    nothing else touches the store. *)
Lemma attempts_effect (ss : SQLStore) ctx (callback : DBTransactionFunc U)
    (sess : ptr) (maxDelay : time.Duration) (more : nat) :
  forall (delay : time.Duration) (retry : Z) w,
    exists k : nat,
      (1 <= k <= S more)%nat
      /\ store (retryer.attempts (retryOnLocks ss ctx callback sess)
                  maxDelay more delay retry w).2
         = after_attempts k callback sess (store w)
      /\ invoked_on (trace (retryer.attempts (retryOnLocks ss ctx callback sess)
                              maxDelay more delay retry w).2)
         = invoked_on (trace w) ++ repeat sess k.
Proof.
  induction more as [|more IH]; intros delay retry w;
    destruct (retryOnLocks_effect ss ctx callback sess retry w) as [Hs Ht];
    cbn [retryer.attempts];
    destruct (retryOnLocks ss ctx callback sess retry w) as [[r c1] w1];
    simpl in Hs, Ht.
  - exists 1%nat. split; [lia|].
    destruct r as [[sig [err|]]|msg]; try destruct sig; simpl; auto.
  - destruct r as [[sig [err|]]|msg]; try destruct sig;
      try (exists 1%nat; split; [lia|]; simpl; now auto).
    + destruct (IH (Z.min (delay * 2) maxDelay) c1
                  (emit (Wait (Z.min (delay * 2) maxDelay)) w1)) as (k & Hk & Hks & Hkt).
      exists (S k). split; [lia|]. rewrite Hks, Hkt. simpl.
      rewrite Hs, invoked_on_app, Ht. simpl.
      rewrite app_nil_r, <- app_assoc. auto.
    + destruct (IH (Z.min (delay * 2) maxDelay) c1
                  (emit (Wait (Z.min (delay * 2) maxDelay)) w1)) as (k & Hk & Hks & Hkt).
      exists (S k). split; [lia|]. rewrite Hks, Hkt. simpl.
      rewrite Hs, invoked_on_app, Ht. simpl.
      rewrite app_nil_r, <- app_assoc. auto.
Qed.

Lemma retry_callback_effect (ss : SQLStore) ctx (callback : DBTransactionFunc U)
    (sess : ptr) w :
  exists k : nat,
    (1 <= k)%nat
    /\ store (retry_callback ss ctx callback sess w).2
       = after_attempts k callback sess (store w)
    /\ invoked_on (trace (retry_callback ss ctx callback sess w).2)
       = invoked_on (trace w) ++ repeat sess k.
Proof.
  unfold retry_callback, retryer.Retry.
  destruct (attempts_effect ss ctx callback sess time.Second
              (Z.to_nat (QueryRetries (dbCfg ss) - 1)) (time.Millisecond * 10) 0 w)
    as (k & Hk & Hs & Ht).
  destruct (retryer.attempts _ _ _ _ _ _) as [[r c] w'].
  exists k. simpl in *. split; [lia|]. auto.
Qed.

(** A property of the store that every call of the callback keeps holds
    after any number of calls. *)
Lemma after_attempts_keeps (P : Store U -> Prop) (callback : DBTransactionFunc U)
    (sess : ptr) :
  (forall s, P s -> P (callback sess s).2) ->
  forall (k : nat) s, P s -> P (after_attempts k callback sess s).
Proof. intros Hkeep. induction k as [|k IH]; intros s Hs; simpl; auto. Qed.

Lemma Close_closes (d : xorm.DB) (xl : loc) (x : xorm.Session) :
  xorm.sessions (xorm.Close (Some xl) d) !! xl = Some x ->
  xorm.isClosed x = true /\ xorm.inTx x = false.
Proof.
  simpl. rewrite lookup_alter_eq.
  destruct (xorm.sessions d !! xl); simpl; [|discriminate].
  intros [= <-]. auto.
Qed.

(** C6: [WithNewDbSession] makes a new xorm session and a new
    [DBSession] at addresses that were free, whatever the context
    carries; the callback is run by the retry executor on that session
    and on no other, at least once, and the store it leaves is the one
    its calls made of the store with the new session; when the executor
    is done, with success, with an error or with a panic, the xorm
    session is closed.  The context has no influence on the result. *)
Theorem WithNewDbSession_new_session_closed (ss : SQLStore) ctx
    (callback : DBTransactionFunc U) w :
  let xl := fresh (dom (xorm.sessions (db (store w)))) in
  let l := fresh (dom (heap (store w))) in
  let w1 := set_store (fun _ => with_new_session (engine ss) (store w)) w in
  WithNewDbSession ss ctx callback w
  = (let '(r, w2) := retry_callback ss ctx callback (Some l) w1 in
     (r, set_store (set_db (xorm.Close (Some xl))) w2))
  /\ heap (store w) !! l = None
  /\ xorm.sessions (db (store w)) !! xl = None
  /\ heap (store w1) !! l
     = Some {| Session := Some xl; transactionOpen := false; events := [] |}
  /\ (forall l', l' <> l -> heap (store w1) !! l' = heap (store w) !! l')
  /\ (forall l', l' <> xl ->
        xorm.sessions (db (store w1)) !! l' = xorm.sessions (db (store w)) !! l')
  /\ (exists k : nat,
        (1 <= k)%nat
        /\ invoked_on (trace (WithNewDbSession ss ctx callback w).2)
           = invoked_on (trace w) ++ repeat (Some l) k
        /\ store (WithNewDbSession ss ctx callback w).2
           = set_db (xorm.Close (Some xl))
               (after_attempts k callback (Some l) (store w1)))
  /\ (forall x,
        xorm.sessions (db (store (WithNewDbSession ss ctx callback w).2)) !! xl = Some x ->
        xorm.isClosed x = true /\ xorm.inTx x = false)
  /\ (forall ctx', WithNewDbSession ss ctx' callback w = WithNewDbSession ss ctx callback w).
Proof.
  intros xl l w1.
  assert (Heq : WithNewDbSession ss ctx callback w
                = (let '(r, w2) := retry_callback ss ctx callback (Some l) w1 in
                   (r, set_store (set_db (xorm.Close (Some xl))) w2))).
  { unfold WithNewDbSession. run. reflexivity. }
  split; [exact Heq|].
  split; [apply fresh_heap|]. split; [apply fresh_session|].
  split; [subst w1 l; simpl; apply lookup_insert_eq|].
  split; [intros l' Hne; subst w1 l; simpl; now rewrite lookup_insert_ne by congruence|].
  split; [intros l' Hne; subst w1 xl; simpl; now rewrite lookup_insert_ne by congruence|].
  split; [|split].
  - destruct (retry_callback_effect ss ctx callback (Some l) w1) as (k & Hk & Hs & Ht).
    exists k. split; [exact Hk|]. rewrite Heq.
    destruct (retry_callback ss ctx callback (Some l) w1) as [r w2]. simpl in *.
    split; [exact Ht|]. now rewrite Hs.
  - intros x. rewrite Heq.
    destruct (retry_callback ss ctx callback (Some l) w1) as [r w2].
    apply Close_closes.
  - intros ctx'. reflexivity.
Qed.

(** C5: [withDbSession] closes the session exactly when it made it.  On
    a context without a session the new xorm session is closed after the
    retry loop, whatever the loop ended with (success, an error, a
    panic).  With a session on the context nothing runs after the retry
    loop: the result and the world are those of the loop, and a handle
    the callback leaves alone is as acquisition left it. *)
Theorem withDbSession_closes_iff_new (ss : SQLStore) ctx (engine : xorm.Engine)
    (callback : DBTransactionFunc U) w :
  (fresh_context ctx ->
   let xl := fresh (dom (xorm.sessions (db (store w)))) in
   let l := fresh (dom (heap (store w))) in
   startSessionOrUseExisting ctx engine false w
   = (Ret (Some l, true, None), created ctx engine false w)
   /\ withDbSession ss ctx engine callback w
      = (let '(r, w2) := retry_callback ss ctx callback (Some l)
                           (created ctx engine false w) in
         (r, set_store (set_db (xorm.Close (Some xl))) w2))
   /\ (forall x,
         xorm.sessions (db (store (withDbSession ss ctx engine callback w).2)) !! xl
         = Some x ->
         xorm.isClosed x = true /\ xorm.inTx x = false))
  /\ (forall sess xl : loc, carries ctx w sess xl ->
      exists v x,
        heap (store w) !! sess = Some v
        /\ xorm.sessions (db (store w)) !! xl = Some x
        /\ startSessionOrUseExisting ctx engine false w
           = (Ret (Some sess, false, None), reused ctx sess xl v x w)
        /\ withDbSession ss ctx engine callback w
           = retry_callback ss ctx callback (Some sess) (reused ctx sess xl v x w)
        /\ ((forall s, xorm.sessions (db (callback (Some sess) s).2) !! xl
                      = xorm.sessions (db s) !! xl) ->
            xorm.sessions (db (store (withDbSession ss ctx engine callback w).2)) !! xl
            = Some (rebound ctx x))).
Proof.
  split.
  - intros Hfresh xl l.
    pose proof (start_fresh ctx engine false w Hfresh (or_introl eq_refl)) as Hstart.
    fold l in Hstart.
    assert (Heq : withDbSession ss ctx engine callback w
                  = (let '(r, w2) := retry_callback ss ctx callback (Some l)
                                       (created ctx engine false w) in
                     (r, set_store (set_db (xorm.Close (Some xl))) w2))).
    { unfold withDbSession, bind at 1. rewrite Hstart.
      unfold bind, on_store, deref, defer. simpl. fold l. rewrite lookup_insert_eq.
      reflexivity. }
    split; [exact Hstart|]. split; [exact Heq|].
    intros x. rewrite Heq.
    destruct (retry_callback ss ctx callback (Some l) (created ctx engine false w))
      as [r w2].
    apply Close_closes.
  - intros sess xl Hc. destruct Hc as [Hctx (v & x & Hv & Hx & Hxl)].
    exists v, x. split; [exact Hv|]. split; [exact Hxl|].
    pose proof (start_reuse ctx engine false w sess xl v x Hctx Hv Hx Hxl) as Hstart.
    assert (Heq : withDbSession ss ctx engine callback w
                  = retry_callback ss ctx callback (Some sess) (reused ctx sess xl v x w)).
    { unfold withDbSession, bind at 1. now rewrite Hstart. }
    split; [exact Hstart|]. split; [exact Heq|].
    intros Hkeep. rewrite Heq.
    destruct (retry_callback_effect ss ctx callback (Some sess)
                (reused ctx sess xl v x w)) as (k & _ & Hs & _).
    rewrite Hs.
    apply (after_attempts_keeps
             (fun s => xorm.sessions (db s) !! xl = Some (rebound ctx x))).
    + intros s Hs'. now rewrite Hkeep.
    + simpl. apply lookup_insert_eq.
Qed.

(** C8, as the code has it: when the pre-insert hook fails, [InsertId]
    returns 0 and the hook's error and the database is as the hook left
    it, no insert having been issued; when the post-insert hook fails
    after a successful insert, [InsertId] returns 0 and the hook's error,
    the database is as the hook left it after the insert, and the row is
    persisted unless the hook itself removed it. *)
Theorem InsertId_hook_failures s (l xl : loc) (v : DBSession) (x : xorm.Session)
    (b : Iface) :
  heap s !! l = Some v ->
  Session v = Some xl ->
  xorm.sessions (db s) !! xl = Some x ->
  let table := xorm.Obj2Table (xorm.mapper (xorm.engine x)) (type_name (dyn_type b)) in
  (forall e d1,
     PreInsertId dialect table (Some xl) (db s) = (Ret (Some e), d1) ->
     InsertId dialect (Some l) (Some b) s = (Ret (0, Some e), set_db (fun _ => d1) s))
  /\ (forall e x1 d1 d3,
       let id := Z.of_nat (length (xorm.rows d1)) + 1 in
       PreInsertId dialect table (Some xl) (db s) = (Ret None, d1) ->
       xorm.sessions d1 !! xl = Some x1 ->
       xorm.insert_fault d1 = None ->
       PostInsertId dialect table (Some xl)
         (xorm.set_rows (fun rs => rs ++ [(b, id)]) d1) = (Ret (Some e), d3) ->
       InsertId dialect (Some l) (Some b) s = (Ret (0, Some e), set_db (fun _ => d3) s)
       /\ (xorm.rows d3 = xorm.rows d1 ++ [(b, id)] ->
           In (b, id) (xorm.rows (db (InsertId dialect (Some l) (Some b) s).2)))).
Proof.
  intros Hv Hx Hxl table. split.
  - intros e d1 Hpre. unfold InsertId.
    repeat (progress (run; rewrite ?Hv, ?Hx, ?Hxl; fold table; rewrite ?Hpre)).
    reflexivity.
  - intros e x1 d1 d3 id Hpre Hx1 Hfault Hpost.
    assert (Heq : InsertId dialect (Some l) (Some b) s
                  = (Ret (0, Some e), set_db (fun _ => d3) s)).
    { unfold InsertId.
      repeat (progress (run; rewrite ?Hv, ?Hx, ?Hxl; fold table;
                        rewrite ?Hpre, ?Hx1, ?Hfault; fold id; rewrite ?Hpost)).
      reflexivity. }
    split; [exact Heq|].
    intros Hrows. rewrite Heq. simpl. rewrite Hrows. apply in_or_app. right. now left.
Qed.

End properties.

(** ** The statements at sample data *)

Example five_attempts_trace :
  let r := WithNewDbSession sample.ss5 context.Background sample.cb_locked sample.w_empty in
  r.1 = Ret (Some (Errorf ErrMaximumRetriesReached "retry %d: %w" [5] sample.locked))
  /\ invocations (trace r.2) = 5%nat
  /\ waits (trace r.2) = [20000000; 40000000; 80000000; 160000000].
Proof. vm_compute. auto. Qed.

Example third_attempt_succeeds :
  let r := WithNewDbSession sample.ss5 context.Background sample.cb_busy_twice
             sample.w_counter in
  r.1 = Ret None
  /\ invocations (trace r.2) = 3%nat
  /\ waits (trace r.2) = [20000000; 40000000]
  /\ user (store r.2) = 3%nat.
Proof. vm_compute. auto. Qed.

Example InsertId_post_hook_failure :
  (InsertId sample.dialect_post_fails (Some 0%nat) (Some sample.bean) sample.s_live).1
  = Ret (0, Some sample.hook_error)
  /\ xorm.rows (db (InsertId sample.dialect_post_fails (Some 0%nat) (Some sample.bean)
                      sample.s_live).2)
     = [(sample.bean, 1)].
Proof. vm_compute. auto. Qed.

Example InsertId_success :
  (InsertId sample.dialect_plain (Some 0%nat) (Some sample.bean) sample.s_live).1
  = Ret (1, None).
Proof. vm_compute. reflexivity. Qed.

Example withDbSession_panic_closes :
  let r := withDbSession sample.ss5 context.Background sample.eng sample.cb_panics
             sample.w_empty in
  r.1 = Panic "index out of range"
  /\ (xorm.isClosed <$> xorm.sessions (db (store r.2)) !! 0%nat) = Some true.
Proof. vm_compute. auto. Qed.

Example withDbSession_reuse_leaves_open :
  let r := withDbSession sample.ss5 sample.ctx_live sample.eng sample.cb_constraint
             sample.w_live in
  r.1 = Ret (Some sample.constraint)
  /\ (xorm.isClosed <$> xorm.sessions (db (store r.2)) !! 0%nat) = Some false.
Proof. vm_compute. auto. Qed.

Lemma sample_carries : carries sample.ctx_live sample.w_live 0%nat 0%nat.
Proof.
  split; [reflexivity|].
  exists sample.v0, sample.x0. repeat split; apply lookup_singleton_eq.
Qed.

Lemma sample_heap : heap (store sample.w_live) !! 0%nat = Some sample.v0.
Proof. apply lookup_singleton_eq. Qed.

Lemma sample_sessions : xorm.sessions (db (store sample.w_live)) !! 0%nat = Some sample.x0.
Proof. apply lookup_singleton_eq. Qed.

Lemma sample_fresh_context : @fresh_context context.Background.
Proof. intros p. simpl. discriminate. Qed.



Lemma retry_returns_other_error_at_once_witness :
  sample.cb_constraint (Some 0%nat) (store sample.w_live)
  = (Ret (Some sample.constraint), sample.s_live)
  /\ lock_contention (Some sample.constraint) = None
  /\ retry_callback sample.ss5 context.Background sample.cb_constraint (Some 0%nat)
       sample.w_live
     = (Ret (Some sample.constraint), called (Some 0%nat) sample.s_live sample.w_live).
Proof.
  split; [reflexivity|]. split; [reflexivity|].
  apply (retry_returns_other_error_at_once sample.ss5 context.Background
           sample.cb_constraint (Some 0%nat) sample.w_live sample.constraint
           sample.s_live eq_refl eq_refl).
Defined.

Lemma startSessionOrUseExisting_reuses_witness :
  carries sample.ctx_live sample.w_live 0%nat 0%nat
  /\ exists w',
       startSessionOrUseExisting sample.ctx_live sample.eng true sample.w_live
       = (Ret (Some 0%nat, false, None), w')
       /\ heap (store w') !! 0%nat = Some sample.v0
       /\ xorm.sessions (db (store w')) !! 0%nat
          = Some (rebound sample.ctx_live sample.x0).
Proof.
  split; [exact sample_carries|].
  destruct (startSessionOrUseExisting_reuses sample.ctx_live sample.eng true
              sample.w_live 0%nat 0%nat sample_carries)
    as (v & x & w' & Hstart & Hv & Hv' & _ & Hx & Hx' & _).
  exists w'. split; [exact Hstart|].
  assert (v = sample.v0) as -> by (rewrite sample_heap in Hv; congruence).
  assert (x = sample.x0) as -> by (rewrite sample_sessions in Hx; congruence).
  split; [exact Hv'|exact Hx'].
Defined.

Lemma startSessionOrUseExisting_reuse_ignores_beginTran_witness :
  carries sample.ctx_live sample.w_live 0%nat 0%nat
  /\ startSessionOrUseExisting sample.ctx_live sample.eng true sample.w_live
     = startSessionOrUseExisting sample.ctx_live sample.eng false sample.w_live.
Proof.
  split; [exact sample_carries|].
  apply (startSessionOrUseExisting_reuse_ignores_beginTran sample.ctx_live sample.eng
           sample.w_live 0%nat 0%nat sample_carries).
Defined.

Lemma startSessionOrUseExisting_creates_witness :
  @fresh_context context.Background
  /\ exists w',
       startSessionOrUseExisting context.Background sample.eng true sample.w_empty
       = (Ret (Some (fresh (dom (heap (store sample.w_empty)))), true, None), w')
       /\ (transactionOpen <$> heap (store w') !! fresh (dom (heap (store sample.w_empty))))
          = Some true.
Proof.
  split; [exact sample_fresh_context|].
  destruct (startSessionOrUseExisting_creates context.Background sample.eng true
              sample.w_empty sample_fresh_context) as [Hok _].
  destruct (Hok (or_intror eq_refl)) as (w' & Hstart & _ & _ & Hv & _).
  exists w'. split; [exact Hstart|]. now rewrite Hv.
Defined.

Lemma withDbSession_closes_iff_new_witness :
  @fresh_context context.Background
  /\ carries sample.ctx_live sample.w_live 0%nat 0%nat
  /\ (forall x,
        xorm.sessions
          (db (store (withDbSession sample.ss5 context.Background sample.eng
                        sample.cb_locked sample.w_empty).2))
          !! fresh (dom (xorm.sessions (db (store sample.w_empty)))) = Some x ->
        xorm.isClosed x = true /\ xorm.inTx x = false)
  /\ xorm.sessions
       (db (store (withDbSession sample.ss5 sample.ctx_live sample.eng
                     sample.cb_locked sample.w_live).2)) !! 0%nat
     = Some (rebound sample.ctx_live sample.x0).
Proof.
  split; [exact sample_fresh_context|]. split; [exact sample_carries|]. split.
  - destruct (withDbSession_closes_iff_new sample.ss5 context.Background sample.eng
                sample.cb_locked sample.w_empty) as [Hnew _].
    destruct (Hnew sample_fresh_context) as (_ & _ & Hclosed). exact Hclosed.
  - destruct (withDbSession_closes_iff_new sample.ss5 sample.ctx_live sample.eng
                sample.cb_locked sample.w_live) as [_ Hold].
    destruct (Hold 0%nat 0%nat sample_carries) as (v & x & _ & Hx & _ & _ & Hkeep).
    assert (x = sample.x0) as -> by (rewrite sample_sessions in Hx; congruence).
    apply Hkeep. intros s. reflexivity.
Defined.

Lemma PublishAfterCommit_keeps_order_witness :
  heap sample.s_live !! 0%nat = Some sample.v0
  /\ exists s1 s2 v2,
       PublishAfterCommit (Some 0%nat) sample.msg_a sample.s_live = (Ret tt, s1)
       /\ PublishAfterCommit (Some 0%nat) sample.msg_b s1 = (Ret tt, s2)
       /\ heap s2 !! 0%nat = Some v2
       /\ events v2 = [sample.msg_a; sample.msg_b].
Proof.
  split; [apply lookup_singleton_eq|].
  destruct (PublishAfterCommit_keeps_order sample.s_live 0%nat sample.v0
              sample.msg_a sample.msg_b (lookup_singleton_eq _ _))
    as (s1 & s2 & v1 & v2 & H1 & H2 & _ & _ & Hv2 & He & _).
  exists s1, s2, v2. auto.
Defined.

(** C8 as the specification has it fails: with a post-insert hook that
    fails, the insert step reports 1 and [InsertId] returns 0. *)
Lemma post_hook_failure_loses_id : ~ post_hook_failure_returns_id.
Proof.
  intros H.
  specialize (H sample.dialect_post_fails sample.s_live 0%nat 0%nat sample.v0
                sample.x0 sample.x0 sample.bean sample.hook_error sample.db_live
                {| xorm.sessions := {[ 0%nat := sample.x0 ]};
                   xorm.rows := [(sample.bean, 1)];
                   xorm.begin_fault := None; xorm.insert_fault := None |}
                (lookup_singleton_eq _ _) eq_refl (lookup_singleton_eq _ _)
                eq_refl (lookup_singleton_eq _ _) eq_refl eq_refl).
  vm_compute in H. discriminate H.
Qed.

Lemma InsertId_hook_failures_witness :
  heap sample.s_live !! 0%nat = Some sample.v0
  /\ Session sample.v0 = Some 0%nat
  /\ xorm.sessions (db sample.s_live) !! 0%nat = Some sample.x0
  /\ (InsertId sample.dialect_pre_fails (Some 0%nat) (Some sample.bean) sample.s_live
      = (Ret (0, Some sample.hook_error), set_db (fun _ => sample.db_live) sample.s_live))
  /\ In (sample.bean, 1)
       (xorm.rows (db (InsertId sample.dialect_post_fails (Some 0%nat) (Some sample.bean)
                         sample.s_live).2)).
Proof.
  split; [apply lookup_singleton_eq|]. split; [reflexivity|].
  split; [apply lookup_singleton_eq|]. split.
  - destruct (InsertId_hook_failures sample.dialect_pre_fails sample.s_live 0%nat 0%nat
                sample.v0 sample.x0 sample.bean (lookup_singleton_eq _ _) eq_refl
                (lookup_singleton_eq _ _)) as [Hpre _].
    exact (Hpre sample.hook_error sample.db_live eq_refl).
  - destruct (InsertId_hook_failures sample.dialect_post_fails sample.s_live 0%nat 0%nat
                sample.v0 sample.x0 sample.bean (lookup_singleton_eq _ _) eq_refl
                (lookup_singleton_eq _ _)) as [_ Hpost].
    destruct (Hpost sample.hook_error sample.x0 sample.db_live
                {| xorm.sessions := {[ 0%nat := sample.x0 ]};
                   xorm.rows := [(sample.bean, 1)];
                   xorm.begin_fault := None; xorm.insert_fault := None |}
                eq_refl (lookup_singleton_eq _ _) eq_refl eq_refl) as [_ Hrow].
    exact (Hrow eq_refl).
Defined.

(** ** Further properties of session.go *)

Section coverage.
Context {U : Type}.
Variable dialect : Dialect.

Implicit Types (s : Store U) (w : World U) (ctx : context.Context).

(** X1: registering the messages of a list one after the other on a live
    session appends the list, in its order, to the pending events; the
    session's other fields, the other sessions, the database and the
    callback's variables stay as they are. *)
Theorem publish_each_appends (msgs : list interface) :
  forall s (l : loc) (v : DBSession),
    heap s !! l = Some v ->
    exists s',
      publish_each (Some l) msgs s = (Ret tt, s')
      /\ heap s' !! l = Some {| Session := Session v;
                                transactionOpen := transactionOpen v;
                                events := events v ++ msgs |}
      /\ (forall l' : loc, l' <> l -> heap s' !! l' = heap s !! l')
      /\ db s' = db s
      /\ user s' = user s.
Proof.
  induction msgs as [|msg msgs IH]; intros s l v Hv.
  - exists s. split; [reflexivity|]. rewrite app_nil_r.
    destruct v; simpl. auto.
  - cbn [publish_each]. unfold bind at 1.
    rewrite (PublishAfterCommit_live s l v msg Hv).
    set (v1 := {| Session := Session v; transactionOpen := transactionOpen v;
                  events := events v ++ [msg] |}).
    set (s1 := set_heap (insert l v1) s).
    assert (Hv1 : heap s1 !! l = Some v1) by (subst s1; simpl; apply lookup_insert_eq).
    destruct (IH s1 l v1 Hv1) as (s' & Hrun & Hl & Hother & Hdb & Huser).
    exists s'. split; [exact Hrun|]. split.
    + rewrite Hl. subst v1. simpl. now rewrite <- app_assoc.
    + split; [|split; [rewrite Hdb|rewrite Huser]; reflexivity].
      intros l' Hne. rewrite (Hother l' Hne). subst s1. simpl.
      now rewrite lookup_insert_ne by congruence.
Qed.

(** X2: [getTypeName] looks through any number of pointer indirections:
    for a value whose type is a pointer chain of any length to a named
    type it returns that name, and to an unnamed type the empty string;
    the value itself plays no part.  For the nil interface it panics. *)
Theorem getTypeName_strips_pointers (n : nat) (z : Z) s :
  (forall name,
     getTypeName (Some {| dyn_type := Nat.iter n PtrTo (Named name); dyn_val := z |}) s
     = (Ret name, s))
  /\ (forall kind,
        getTypeName (Some {| dyn_type := Nat.iter n PtrTo (Unnamed kind); dyn_val := z |}) s
        = (Ret "", s))
  /\ getTypeName None s = (Panic nil_deref, s).
Proof.
  assert (H : forall t, type_name (Nat.iter n PtrTo t) = type_name t).
  { intros t. induction n as [|n IH]; simpl; auto. }
  split; [|split]; [intros name|intros kind|]; unfold getTypeName, ret, panic; simpl;
    rewrite ?H; reflexivity.
Qed.

Lemma As_sqlite3_wrap_all (msgs : list string) (e : error) :
  errors.As_sqlite3 (wrap_all msgs e) = errors.As_sqlite3 e.
Proof. induction msgs as [|m msgs IH]; simpl; auto. Qed.

(** X3: the classification of an error by [retryOnLocks] looks through
    wrapping: an error that wraps a lock-contention error with %w, any
    number of times, is lock contention with the same sqlite error, and
    so is the error [ErrMaximumRetriesReached.Errorf] makes from it; an
    error that is no lock contention is none after wrapping either. *)
Theorem lock_contention_through_wrapping (msgs : list string) (e : error) :
  (forall sqlError,
     lock_contention (Some e) = Some (e, sqlError) ->
     lock_contention (Some (wrap_all msgs e)) = Some (wrap_all msgs e, sqlError)
     /\ forall retry,
          lock_contention
            (Some (Errorf ErrMaximumRetriesReached "retry %d: %w" [retry] (wrap_all msgs e)))
          = Some (Errorf ErrMaximumRetriesReached "retry %d: %w" [retry] (wrap_all msgs e),
                  sqlError))
  /\ (lock_contention (Some e) = None ->
      lock_contention (Some (wrap_all msgs e)) = None).
Proof.
  unfold lock_contention. simpl. rewrite As_sqlite3_wrap_all.
  destruct (errors.As_sqlite3 e) as [sq|]; [|split; [discriminate|reflexivity]].
  destruct ((sqlite3.Code sq =? sqlite3.ErrLocked) || (sqlite3.Code sq =? sqlite3.ErrBusy));
    split; try discriminate; try reflexivity.
  intros sqlError [= <-]. split; reflexivity.
Qed.

(** Unfold the state operations of the package and of xorm. *)
Ltac go_run :=
  repeat (progress (unfold bind, ret, panic, gets, modify, defer, log, on_store, on_db,
                      deref, assign, new, set_Session, getTypeName,
                      xorm.load, xorm.update, xorm.NewSession, xorm.Context, xorm.Begin,
                      xorm.DB_Mapper, xorm.InsertOne;
                    simpl; rewrite ?lookup_insert_eq)).

(** Case analysis on what the next [match] of the goal or of a
    hypothesis looks at. *)
Ltac break_match :=
  match goal with
  | H : context [match ?x with _ => _ end] |- _ => destruct x eqn:?
  | |- context [match ?x with _ => _ end] => destruct x eqn:?
  end.

(** X4: whatever the hooks, the driver and the store do, an error that
    [InsertId] returns comes with the identifier 0. *)
Theorem InsertId_error_has_zero_id (sess : ptr) (bean : interface) s
    (id : Z) (e : error) (s' : Store U) :
  InsertId dialect sess bean s = (Ret (id, Some e), s') -> id = 0.
Proof.
  unfold InsertId. go_run. intros H.
  repeat (break_match; simpl in *; try discriminate);
    repeat match goal with
           | H : (_, _) = (_, _) |- _ => injection H as ? ?; subst
           | H : Ret _ = Ret _ |- _ => injection H as ?; subst
           end;
    try discriminate; try congruence.
Qed.

(** X5: when the pre-insert hook succeeds and the driver refuses the
    insert, [InsertId] returns 0 and the driver's error; the post-insert
    hook is not run and the database is as the pre-insert hook left
    it. *)
Theorem InsertId_insert_failure s (l xl : loc) (v : DBSession) (x x1 : xorm.Session)
    (b : Iface) (e : error) (d1 : xorm.DB) :
  heap s !! l = Some v ->
  Session v = Some xl ->
  xorm.sessions (db s) !! xl = Some x ->
  PreInsertId dialect
    (xorm.Obj2Table (xorm.mapper (xorm.engine x)) (type_name (dyn_type b)))
    (Some xl) (db s) = (Ret None, d1) ->
  xorm.sessions d1 !! xl = Some x1 ->
  xorm.insert_fault d1 = Some e ->
  InsertId dialect (Some l) (Some b) s = (Ret (0, Some e), set_db (fun _ => d1) s).
Proof.
  intros Hv Hx Hxl Hpre Hx1 Hfault. unfold InsertId.
  repeat (progress (go_run; rewrite ?Hv, ?Hx, ?Hxl, ?Hpre, ?Hx1, ?Hfault)).
  reflexivity.
Qed.

(** X6: when both hooks and the driver succeed, [InsertId] returns what
    [InsertOne] returned and no error; that number is the count of
    affected rows, 1, whatever identifier the row was given.  The hooks
    are given the table name the mapper makes from the type name of the
    bean; the database is the one the post-insert hook was run on, with
    the row added, as that hook left it. *)
Theorem InsertId_returns_rows_affected s (l xl : loc) (v : DBSession)
    (x x1 : xorm.Session) (b : Iface) (d1 d3 : xorm.DB) :
  heap s !! l = Some v ->
  Session v = Some xl ->
  xorm.sessions (db s) !! xl = Some x ->
  let table := xorm.Obj2Table (xorm.mapper (xorm.engine x)) (type_name (dyn_type b)) in
  let id := Z.of_nat (length (xorm.rows d1)) + 1 in
  PreInsertId dialect table (Some xl) (db s) = (Ret None, d1) ->
  xorm.sessions d1 !! xl = Some x1 ->
  xorm.insert_fault d1 = None ->
  PostInsertId dialect table (Some xl)
    (xorm.set_rows (fun rs => rs ++ [(b, id)]) d1) = (Ret None, d3) ->
  InsertId dialect (Some l) (Some b) s = (Ret (1, None), set_db (fun _ => d3) s)
  /\ (xorm.rows d3 = xorm.rows d1 ++ [(b, id)] ->
      xorm.rows (db s) = xorm.rows d1 ->
      xorm.rows (db (InsertId dialect (Some l) (Some b) s).2)
      = xorm.rows (db s) ++ [(b, Z.of_nat (length (xorm.rows (db s))) + 1)]).
Proof.
  intros Hv Hx Hxl table id Hpre Hx1 Hfault Hpost.
  assert (Heq : InsertId dialect (Some l) (Some b) s
                = (Ret (1, None), set_db (fun _ => d3) s)).
  { unfold InsertId.
    repeat (progress (go_run; rewrite ?Hv, ?Hx, ?Hxl; fold table;
                      rewrite ?Hpre, ?Hx1, ?Hfault; fold id; rewrite ?Hpost)).
    reflexivity. }
  split; [exact Heq|].
  intros Hrows Hsame. rewrite Heq. simpl. rewrite Hrows. subst id. now rewrite Hsame.
Qed.

(** X7: [InsertId] panics on a nil session, on a session without a live
    handle and on a nil bean; in each case it has run no hook and the
    store is untouched. *)
Theorem InsertId_panics_before_hooks (sess : ptr) (bean : interface) s :
  sess = None
  \/ (exists l : loc, sess = Some l /\ heap s !! l = None)
  \/ (exists (l : loc) v, sess = Some l /\ heap s !! l = Some v
        /\ (Session v = None
            \/ exists xl : loc, Session v = Some xl
                                /\ xorm.sessions (db s) !! xl = None))
  \/ (bean = None
      /\ exists (l xl : loc) v x, sess = Some l /\ heap s !! l = Some v
           /\ Session v = Some xl /\ xorm.sessions (db s) !! xl = Some x) ->
  InsertId dialect sess bean s = (Panic nil_deref, s).
Proof.
  intros [->|[(l & -> & Hl)|[(l & v & -> & Hv & Hx)|(-> & l & xl & v & x & -> & Hv & Hx & Hxl)]]];
    unfold InsertId.
  - reflexivity.
  - go_run. now rewrite Hl.
  - go_run. rewrite Hv. go_run.
    destruct Hx as [Hx|(xl & Hx & Hxl)]; rewrite Hx; go_run; rewrite ?Hxl;
      now rewrite set_db_id.
  - repeat (progress (go_run; rewrite ?Hv, ?Hx, ?Hxl)). now rewrite set_db_id.
Qed.

Lemma start_nil_session ctx (engine : xorm.Engine) (b : bool) w :
  context.Value ctx context.ContextSessionKey = Some (context.DBSessionPtr None) ->
  startSessionOrUseExisting ctx engine b w = (Panic nil_deref, w).
Proof.
  intros Hctx. unfold startSessionOrUseExisting. rewrite Hctx. go_run.
  now rewrite set_store_id.
Qed.

Lemma start_dangling_session ctx (engine : xorm.Engine) (b : bool) w (l : loc) :
  context.Value ctx context.ContextSessionKey = Some (context.DBSessionPtr (Some l)) ->
  heap (store w) !! l = None ->
  startSessionOrUseExisting ctx engine b w = (Panic nil_deref, w).
Proof.
  intros Hctx Hl. unfold startSessionOrUseExisting. rewrite Hctx. go_run. rewrite Hl.
  now rewrite set_store_id.
Qed.

Lemma start_nil_handle ctx (engine : xorm.Engine) (b : bool) w (l : loc) (v : DBSession) :
  context.Value ctx context.ContextSessionKey = Some (context.DBSessionPtr (Some l)) ->
  heap (store w) !! l = Some v ->
  Session v = None
  \/ (exists xl : loc, Session v = Some xl /\ xorm.sessions (db (store w)) !! xl = None) ->
  startSessionOrUseExisting ctx engine b w
  = (Panic nil_deref,
     emit (LogDebug "sqlstore.session" "reusing existing session" (transactionOpen v)) w).
Proof.
  intros Hctx Hv Hx. unfold startSessionOrUseExisting. rewrite Hctx. go_run. rewrite Hv.
  go_run. unfold emit, set_store. simpl.
  destruct Hx as [Hx|(xl & Hx & Hxl)]; rewrite Hx; go_run; rewrite ?Hxl;
    now rewrite set_db_id.
Qed.

(** X8: a context that holds a nil [*DBSession] under the session key
    makes acquisition panic: the type assertion succeeds and the nil
    pointer is dereferenced.  No session is made in its place and the
    world is untouched.  When the session is there and its handle is
    nil, the panic comes after the debug line. *)
Theorem startSessionOrUseExisting_nil_panics ctx (engine : xorm.Engine) (b : bool) w :
  (context.Value ctx context.ContextSessionKey = Some (context.DBSessionPtr None) ->
   startSessionOrUseExisting ctx engine b w = (Panic nil_deref, w))
  /\ (forall (l : loc) v,
        context.Value ctx context.ContextSessionKey
        = Some (context.DBSessionPtr (Some l)) ->
        heap (store w) !! l = Some v ->
        Session v = None ->
        startSessionOrUseExisting ctx engine b w
        = (Panic nil_deref,
           emit (LogDebug "sqlstore.session" "reusing existing session"
                   (transactionOpen v)) w)).
Proof.
  split.
  - apply start_nil_session.
  - intros l v Hctx Hv Hx. apply (start_nil_handle ctx engine b w l v Hctx Hv). now left.
Qed.

Lemma start_begin_fault ctx (engine : xorm.Engine) w (e : error) :
  fresh_context ctx ->
  xorm.begin_fault (db (store w)) = Some e ->
  startSessionOrUseExisting ctx engine true w
  = (Ret (None, false, Some e), begin_failed engine w).
Proof.
  intros Hfresh Hfault. rewrite (start_fresh_branch _ _ _ _ Hfresh).
  go_run. rewrite Hfault. reflexivity.
Qed.

(** X9: when [Begin] fails, acquisition returns its error and leaves the
    xorm session it made for the attempt behind: the session is in the
    database, not closed, without a transaction and bound to no context,
    and nothing was logged. *)
Theorem startSessionOrUseExisting_begin_failure_leaves_session ctx
    (engine : xorm.Engine) w (e : error) :
  fresh_context ctx ->
  xorm.begin_fault (db (store w)) = Some e ->
  exists w',
    startSessionOrUseExisting ctx engine true w = (Ret (None, false, Some e), w')
    /\ xorm.sessions (db (store w)) !! fresh (dom (xorm.sessions (db (store w)))) = None
    /\ xorm.sessions (db (store w')) !! fresh (dom (xorm.sessions (db (store w))))
       = Some {| xorm.engine := engine; xorm.ctx := None; xorm.inTx := false;
                 xorm.isClosed := false |}
    /\ trace w' = trace w.
Proof.
  intros Hfresh Hfault. exists (begin_failed engine w).
  split; [now apply start_begin_fault|].
  split; [apply fresh_session|].
  split; [simpl; apply lookup_insert_eq|reflexivity].
Qed.

Lemma frame_refl w : acquisition_frame w w.
Proof.
  repeat split; auto.
  - intros xl x Hx. exists x. auto.
  - exists []. rewrite app_nil_r. simpl. auto.
Qed.

Lemma frame_debug w (msg : string) (b : bool) :
  acquisition_frame w (emit (LogDebug "sqlstore.session" msg b) w).
Proof.
  repeat split; auto.
  - intros xl x Hx. exists x. auto.
  - eexists. split; [reflexivity|]. simpl. auto.
Qed.

Lemma frame_reused ctx w (sess xl : loc) (v : DBSession) (x : xorm.Session) :
  heap (store w) !! sess = Some v ->
  xorm.sessions (db (store w)) !! xl = Some x ->
  acquisition_frame w (reused ctx sess xl v x w).
Proof.
  intros Hv Hx. repeat split; auto.
  - intros l v' Hv'. simpl. destruct (decide (sess = l)) as [<-|Hne].
    + rewrite lookup_insert_eq. congruence.
    + now rewrite lookup_insert_ne.
  - intros xl' x' Hx'. simpl. destruct (decide (xl = xl')) as [<-|Hne].
    + rewrite lookup_insert_eq. exists (rebound ctx x).
      assert (x' = x) as -> by congruence. auto.
    + rewrite lookup_insert_ne by exact Hne. exists x'. auto.
  - eexists. split; [reflexivity|]. simpl. auto.
Qed.

(** Allocation at free addresses keeps what was there. *)
Lemma frame_allocated w (v : DBSession) (x : xorm.Session) :
  acquisition_frame w
    {| store :=
         set_heap (insert (fresh (dom (heap (store w)))) v)
           (set_db (fun _ => xorm.set_sessions
                               (insert (fresh (dom (xorm.sessions (db (store w))))) x)
                               (db (store w))) (store w));
       trace := trace w |}.
Proof.
  repeat split; auto.
  - intros l v' Hv'. simpl. rewrite lookup_insert_ne; [exact Hv'|].
    intros <-. rewrite fresh_heap in Hv'. discriminate.
  - intros xl x' Hx'. simpl. exists x'. rewrite lookup_insert_ne; [auto|].
    intros <-. rewrite fresh_session in Hx'. discriminate.
  - exists []. rewrite app_nil_r. simpl. auto.
Qed.

(** X10: acquisition, whatever it is given and however it ends, changes
    nothing but the context a handle is bound to: the rows, the driver,
    the callback's variables, every [DBSession] that was there (its
    handle, [transactionOpen] and events) and the engine, transaction
    and closed state of every xorm session that was there stay; the
    callback is not called and at most one line is logged. *)
Theorem startSessionOrUseExisting_frame ctx (engine : xorm.Engine) (b : bool) w :
  acquisition_frame w (startSessionOrUseExisting ctx engine b w).2.
Proof.
  destruct (context.Value ctx context.ContextSessionKey) as [[[l|]|tag]|] eqn:Hctx.
  - destruct (heap (store w) !! l) as [v|] eqn:Hv.
    + destruct (Session v) as [xl|] eqn:Hx.
      * destruct (xorm.sessions (db (store w)) !! xl) as [x|] eqn:Hxl.
        -- rewrite (start_reuse ctx engine b w l xl v x Hctx Hv Hx Hxl).
           now apply frame_reused.
        -- rewrite (start_nil_handle ctx engine b w l v Hctx Hv); [apply frame_debug|].
           right. eauto.
      * rewrite (start_nil_handle ctx engine b w l v Hctx Hv); [apply frame_debug|].
        now left.
    + rewrite (start_dangling_session ctx engine b w l Hctx Hv). apply frame_refl.
  - rewrite (start_nil_session ctx engine b w Hctx). apply frame_refl.
  - assert (Hfresh : fresh_context ctx) by (intros p Hp; congruence).
    destruct b; [destruct (xorm.begin_fault (db (store w))) as [e|] eqn:Hfault|].
    + rewrite (start_begin_fault ctx engine w e Hfresh Hfault). apply frame_allocated.
    + rewrite (start_fresh ctx engine true w Hfresh (or_intror Hfault)).
      apply frame_allocated.
    + rewrite (start_fresh ctx engine false w Hfresh (or_introl eq_refl)).
      apply frame_allocated.
  - assert (Hfresh : fresh_context ctx) by (intros p Hp; congruence).
    destruct b; [destruct (xorm.begin_fault (db (store w))) as [e|] eqn:Hfault|].
    + rewrite (start_begin_fault ctx engine w e Hfresh Hfault). apply frame_allocated.
    + rewrite (start_fresh ctx engine true w Hfresh (or_intror Hfault)).
      apply frame_allocated.
    + rewrite (start_fresh ctx engine false w Hfresh (or_introl eq_refl)).
      apply frame_allocated.
Qed.

(** X11: the shape of what acquisition returns.  An error is the one
    [Begin] gave: it comes only when a transaction was asked for on a
    context without a session, and then with no session and [false].
    Without an error the session returned is not nil and live, and
    [isNew] tells whether the context was without a session.  So with
    [beginTran = false], as [withDbSession] calls it, acquisition never
    returns an error. *)
Theorem startSessionOrUseExisting_result ctx (engine : xorm.Engine) (b : bool) w
    (sess : ptr) (isNew : bool) (err : option error) (w' : World U) :
  startSessionOrUseExisting ctx engine b w = (Ret (sess, isNew, err), w') ->
  match err with
  | Some e =>
      b = true /\ sess = None /\ isNew = false /\ fresh_context ctx
      /\ xorm.begin_fault (db (store w)) = Some e
  | None =>
      (exists (l : loc) v, sess = Some l /\ heap (store w') !! l = Some v)
      /\ (isNew = true <-> fresh_context ctx)
  end.
Proof.
  destruct (context.Value ctx context.ContextSessionKey) as [[[l|]|tag]|] eqn:Hctx.
  - destruct (heap (store w) !! l) as [v|] eqn:Hv.
    + destruct (Session v) as [xl|] eqn:Hx.
      * destruct (xorm.sessions (db (store w)) !! xl) as [x|] eqn:Hxl.
        -- rewrite (start_reuse ctx engine b w l xl v x Hctx Hv Hx Hxl).
           intros [= <- <- <- <-]. split.
           ++ exists l, v. split; [reflexivity|]. simpl. apply lookup_insert_eq.
           ++ split; [discriminate|]. intros Hfresh. exfalso. exact (Hfresh _ Hctx).
        -- rewrite (start_nil_handle ctx engine b w l v Hctx Hv); [discriminate|].
           right. eauto.
      * rewrite (start_nil_handle ctx engine b w l v Hctx Hv); [discriminate|]. now left.
    + rewrite (start_dangling_session ctx engine b w l Hctx Hv). discriminate.
  - rewrite (start_nil_session ctx engine b w Hctx). discriminate.
  - assert (Hfresh : fresh_context ctx) by (intros p Hp; congruence).
    destruct b; [destruct (xorm.begin_fault (db (store w))) as [e|] eqn:Hfault|].
    + rewrite (start_begin_fault ctx engine w e Hfresh Hfault).
      intros [= <- <- <- <-]. auto.
    + rewrite (start_fresh ctx engine true w Hfresh (or_intror Hfault)).
      intros [= <- <- <- <-]. split; [|tauto].
      eexists _, _. split; [reflexivity|]. simpl. apply lookup_insert_eq.
    + rewrite (start_fresh ctx engine false w Hfresh (or_introl eq_refl)).
      intros [= <- <- <- <-]. split; [|tauto].
      eexists _, _. split; [reflexivity|]. simpl. apply lookup_insert_eq.
  - assert (Hfresh : fresh_context ctx) by (intros p Hp; congruence).
    destruct b; [destruct (xorm.begin_fault (db (store w))) as [e|] eqn:Hfault|].
    + rewrite (start_begin_fault ctx engine w e Hfresh Hfault).
      intros [= <- <- <- <-]. auto.
    + rewrite (start_fresh ctx engine true w Hfresh (or_intror Hfault)).
      intros [= <- <- <- <-]. split; [|tauto].
      eexists _, _. split; [reflexivity|]. simpl. apply lookup_insert_eq.
    + rewrite (start_fresh ctx engine false w Hfresh (or_introl eq_refl)).
      intros [= <- <- <- <-]. split; [|tauto].
      eexists _, _. split; [reflexivity|]. simpl. apply lookup_insert_eq.
Qed.

(** X12: two acquisitions in a row on contexts that carry the same
    session leave the store as the second one alone would: the handle is
    bound to the context of the last acquisition and the first binding
    leaves no mark; in particular acquiring twice with one context
    changes the store no more than acquiring once. *)
Theorem startSessionOrUseExisting_last_binding_wins ctx ctx' (engine : xorm.Engine)
    (b b' : bool) w (sess xl : loc) :
  carries ctx w sess xl ->
  context.Value ctx' context.ContextSessionKey
  = Some (context.DBSessionPtr (Some sess)) ->
  let w1 := (startSessionOrUseExisting ctx engine b w).2 in
  (startSessionOrUseExisting ctx' engine b' w1).1 = Ret (Some sess, false, None)
  /\ store (startSessionOrUseExisting ctx' engine b' w1).2
     = store (startSessionOrUseExisting ctx' engine b' w).2
  /\ (exists x, xorm.sessions (db (store w)) !! xl = Some x
               /\ xorm.sessions (db (store (startSessionOrUseExisting ctx' engine b' w1).2))
                    !! xl = Some (rebound ctx' x)).
Proof.
  intros [Hctx (v & x & Hv & Hx & Hxl)] Hctx' w1. subst w1.
  rewrite (start_reuse ctx engine b w sess xl v x Hctx Hv Hx Hxl). simpl.
  rewrite (start_reuse ctx' engine b' w sess xl v x Hctx' Hv Hx Hxl).
  rewrite (start_reuse ctx' engine b' (reused ctx sess xl v x w) sess xl v
             (rebound ctx x) Hctx');
    [|simpl; apply lookup_insert_eq|exact Hx|simpl; apply lookup_insert_eq].
  split; [reflexivity|]. split.
  - simpl. unfold set_heap, set_db, xorm.set_sessions. simpl.
    now rewrite !insert_insert_eq.
  - exists x. split; [exact Hxl|]. simpl. now rewrite lookup_insert_eq.
Qed.

Lemma lock_contention_Some (err : option error) (e : error) (sqlError : sqlite3.Error) :
  lock_contention err = Some (e, sqlError) -> err = Some e.
Proof.
  unfold lock_contention. destruct err as [e'|]; [|discriminate].
  destruct (errors.As_sqlite3 e') as [sq|]; [|discriminate].
  destruct (_ || _); [|discriminate]. now intros [= <- _].
Qed.

(** X13: the signal and the error of the closure go together.  It
    returns an error exactly with [FuncError]; [FuncComplete] exactly
    when the callback returned nil; [FuncFailure] only after a
    lock-contention error on a call whose number differs from
    [QueryRetries].  Each call adds one to the captured counter. *)
Theorem retryOnLocks_signal (ss : SQLStore) ctx (callback : DBTransactionFunc U)
    (sess : ptr) (retry : Z) w (sig : retryer.RetrySignal) (err : option error)
    (c : Z) (w' : World U) :
  retryOnLocks ss ctx callback sess retry w = (Ret (sig, err), c, w') ->
  c = int_wrap (retry + 1)
  /\ (sig = retryer.FuncError <-> err <> None)
  /\ (sig = retryer.FuncComplete <-> (callback sess (store w)).1 = Ret None)
  /\ (sig = retryer.FuncFailure ->
      c <> QueryRetries (dbCfg ss)
      /\ exists e sqlError,
           (callback sess (store w)).1 = Ret (Some e)
           /\ lock_contention (Some e) = Some (e, sqlError)).
Proof.
  unfold retryOnLocks.
  destruct (callback sess (store w)) as [r s'] eqn:Hcb.
  rewrite (invoke_called _ _ _ _ _ Hcb). simpl.
  destruct r as [cberr|msg]; [|discriminate].
  destruct (lock_contention cberr) as [[e sqlError]|] eqn:Hlock.
  - pose proof (lock_contention_Some _ _ _ Hlock) as ->.
    destruct (int_wrap (retry + 1) =? QueryRetries (dbCfg ss)) eqn:E;
      intros [= <- <- <- <-].
    + repeat split; try discriminate; try congruence.
    + apply Z.eqb_neq in E.
      repeat split; try discriminate; try congruence; eauto.
  - destruct cberr as [e|]; intros [= <- <- <- <-];
      repeat split; try discriminate; try congruence;
      try (intros H; now elim H).
Qed.

(** X14: the closure gives up by comparing its counter with
    [QueryRetries] for equality.  On a call whose number is already past
    [QueryRetries], and so on every call when [QueryRetries] is zero or
    negative, a lock-contention error is answered with [FuncFailure] and
    no error: the closure logs the line and leaves the end of the loop to
    the retryer. *)
Theorem retryOnLocks_past_limit_never_gives_up (ss : SQLStore) ctx
    (callback : DBTransactionFunc U) (sess : ptr) (retry : Z) w
    (e : error) (sqlError : sqlite3.Error) (s' : Store U) :
  callback sess (store w) = (Ret (Some e), s') ->
  lock_contention (Some e) = Some (e, sqlError) ->
  0 <= retry < 2 ^ 63 - 1 ->
  QueryRetries (dbCfg ss) <= retry ->
  retryOnLocks ss ctx callback sess retry w
  = (Ret (retryer.FuncFailure, None), retry + 1,
     emit (LogInfo "tsclogger" "Database locked, sleeping then retrying"
             (Some e) (retry + 1) (sqlite3.Code sqlError)) (called sess s' w)).
Proof.
  intros Hcb Hlock Hretry Hpast.
  rewrite (retryOnLocks_locked ss ctx callback sess retry w e sqlError s' Hcb Hlock).
  rewrite int_wrap_small by lia.
  destruct (retry + 1 =? QueryRetries (dbCfg ss)) eqn:E; [|reflexivity].
  apply Z.eqb_eq in E. lia.
Qed.

(** What the retry loop ends with, read against the last call of the
    callback. *)
Definition ends_as (ss : SQLStore) (r : Outcome (option error))
    (last : Outcome (option error)) (exhausted : Prop) : Prop :=
  match r with
  | Panic msg => last = Panic msg
  | Ret None => last = Ret None
  | Ret (Some e) =>
      (last = Ret (Some e) /\ lock_contention (Some e) = None)
      \/ exists e0 sqlError,
           last = Ret (Some e0)
           /\ lock_contention (Some e0) = Some (e0, sqlError)
           /\ (e = Errorf ErrMaximumRetriesReached "retry %d: %w"
                     [QueryRetries (dbCfg ss)] e0
               \/ (e = retryer.ErrMaxRetries /\ exhausted))
  end.

(** The ways one call of the closure can end. *)
Lemma retryOnLocks_cases (ss : SQLStore) ctx (callback : DBTransactionFunc U)
    (sess : ptr) (retry : Z) w :
  exists res c w1,
    retryOnLocks ss ctx callback sess retry w = (res, c, w1)
    /\ store w1 = (callback sess (store w)).2
    /\ invoked_on (trace w1) = invoked_on (trace w) ++ [sess]
    /\ ((exists msg, res = Panic msg /\ (callback sess (store w)).1 = Panic msg)
        \/ (res = Ret (retryer.FuncComplete, None)
            /\ (callback sess (store w)).1 = Ret None)
        \/ (exists e, res = Ret (retryer.FuncError, Some e)
                      /\ (callback sess (store w)).1 = Ret (Some e)
                      /\ lock_contention (Some e) = None)
        \/ (exists e sqlError,
              (callback sess (store w)).1 = Ret (Some e)
              /\ lock_contention (Some e) = Some (e, sqlError)
              /\ (res = Ret (retryer.FuncError,
                             Some (Errorf ErrMaximumRetriesReached "retry %d: %w"
                                     [QueryRetries (dbCfg ss)] e))
                  \/ res = Ret (retryer.FuncFailure, None)))).
Proof.
  destruct (retryOnLocks_effect ss ctx callback sess retry w) as [Hs Ht].
  destruct (retryOnLocks ss ctx callback sess retry w) as [[res c] w1] eqn:Hrun.
  exists res, c, w1. simpl in Hs, Ht.
  split; [reflexivity|]. split; [exact Hs|]. split; [exact Ht|].
  revert Hrun. unfold retryOnLocks.
  destruct (callback sess (store w)) as [r0 s'] eqn:Hcb.
  rewrite (invoke_called _ _ _ _ _ Hcb). simpl.
  destruct r0 as [cberr|msg].
  - destruct (lock_contention cberr) as [[e sqlError]|] eqn:Hlock.
    + pose proof (lock_contention_Some _ _ _ Hlock) as ->.
      destruct (int_wrap (retry + 1) =? QueryRetries (dbCfg ss)) eqn:E;
        intros [= <- <- <-]; right; right; right; exists e, sqlError;
        split; [reflexivity| |reflexivity|]; (split; [exact Hlock|]).
      * left. apply Z.eqb_eq in E. now rewrite E.
      * now right.
    + destruct cberr as [e|]; intros [= <- <- <-].
      * right; right; left. exists e. auto.
      * right; left. auto.
  - intros [= <- <- <-]. left. exists msg. auto.
Qed.

Lemma attempts_outcome (ss : SQLStore) ctx (callback : DBTransactionFunc U)
    (sess : ptr) (maxDelay : time.Duration) (more : nat) :
  forall (delay : time.Duration) (retry : Z) w r c w',
    retryer.attempts (retryOnLocks ss ctx callback sess) maxDelay more delay retry w
    = (r, c, w') ->
    exists j : nat,
      (j <= more)%nat
      /\ store w' = after_attempts (S j) callback sess (store w)
      /\ invoked_on (trace w') = invoked_on (trace w) ++ repeat sess (S j)
      /\ ends_as ss r (callback sess (after_attempts j callback sess (store w))).1
           (j = more).
Proof.
  induction more as [|more IH]; intros delay retry w r c w';
    cbn [retryer.attempts];
    destruct (retryOnLocks_cases ss ctx callback sess retry w)
      as (res & c1 & w1 & -> & Hs & Ht & Hcase).
  - destruct Hcase as [(msg & -> & Hl)|[(-> & Hl)|[(e & -> & Hl & Hno)
                      |(e & sq & Hl & Hlock & [->| ->])]]];
      intros [= <- <- <-]; exists 0%nat; (split; [lia|]);
      (split; [exact Hs|]); (split; [exact Ht|]); simpl; auto.
    + right. exists e, sq. auto.
    + right. exists e, sq. auto.
  - destruct Hcase as [(msg & -> & Hl)|[(-> & Hl)|[(e & -> & Hl & Hno)
                      |(e & sq & Hl & Hlock & [->| ->])]]].
    + intros [= <- <- <-]. exists 0%nat. split; [lia|]. simpl. auto.
    + intros [= <- <- <-]. exists 0%nat. split; [lia|]. simpl. auto.
    + intros [= <- <- <-]. exists 0%nat. split; [lia|]. simpl. auto.
    + intros [= <- <- <-]. exists 0%nat. split; [lia|]. simpl.
      split; [exact Hs|]. split; [exact Ht|]. right. exists e, sq. auto.
    + intros Hrun. apply IH in Hrun. destruct Hrun as (j & Hj & Hs' & Ht' & Hend).
      simpl in Hs', Ht', Hend. rewrite invoked_on_app in Ht'. simpl in Ht'.
      rewrite app_nil_r, Ht, <- app_assoc in Ht'. rewrite Hs in Hs', Hend.
      exists (S j). split; [lia|]. split; [exact Hs'|]. split; [exact Ht'|].
      unfold ends_as in *. destruct r as [[e1|]|msg]; auto.
      destruct Hend as [Hend|(e0 & sq0 & H1 & H2 & [H3|[H3 H4]])].
      * now left.
      * right. exists e0, sq0. auto.
      * right. exists e0, sq0. split; [exact H1|]. split; [exact H2|].
        right. split; [exact H3|lia].
Qed.

(** X15: the retry executor neither swallows nor invents an outcome.
    When it returns nil, the last call of the callback returned nil; when
    it panics, the last call panicked with that value; when it returns
    an error, the last call returned that very error and it is no lock
    contention, or the last call returned a lock-contention error and
    the result either wraps it in [ErrMaximumRetriesReached] with the
    number [QueryRetries] or is the retryer's own error for exhausted
    retries.  The callback was called on the one session, at least
    once. *)
Theorem retry_callback_outcome (ss : SQLStore) ctx (callback : DBTransactionFunc U)
    (sess : ptr) w (r : Outcome (option error)) (w' : World U) :
  retry_callback ss ctx callback sess w = (r, w') ->
  exists j : nat,
    store w' = after_attempts (S j) callback sess (store w)
    /\ invoked_on (trace w') = invoked_on (trace w) ++ repeat sess (S j)
    /\ ends_as ss r (callback sess (after_attempts j callback sess (store w))).1
         (j = Z.to_nat (QueryRetries (dbCfg ss) - 1)).
Proof.
  unfold retry_callback, retryer.Retry.
  destruct (retryer.attempts _ _ _ _ _ _) as [[r0 c] w0] eqn:Hrun.
  intros [= <- <-].
  destruct (attempts_outcome _ _ _ _ _ _ _ _ _ _ _ _ Hrun) as (j & _ & Hs & Ht & Hend).
  exists j. auto.
Qed.

(** X16: the retry executor calls the callback at least once and at most
    [QueryRetries] times (once when [QueryRetries] is below 1), always on
    the same session, and between the calls nothing touches the store:
    the final store is the callback applied that many times. *)
Theorem retry_callback_attempts_bounded (ss : SQLStore) ctx
    (callback : DBTransactionFunc U) (sess : ptr) w :
  exists k : nat,
    (1 <= k)%nat
    /\ Z.of_nat k <= Z.max 1 (QueryRetries (dbCfg ss))
    /\ invoked_on (trace (retry_callback ss ctx callback sess w).2)
       = invoked_on (trace w) ++ repeat sess k
    /\ store (retry_callback ss ctx callback sess w).2
       = after_attempts k callback sess (store w).
Proof.
  unfold retry_callback, retryer.Retry.
  destruct (retryer.attempts _ _ _ _ _ _) as [[r0 c] w0] eqn:Hrun.
  destruct (attempts_outcome _ _ _ _ _ _ _ _ _ _ _ _ Hrun) as (j & Hj & Hs & Ht & _).
  exists (S j). simpl. split; [lia|]. split; [lia|]. auto.
Qed.

Lemma waits_app (t t' : list Event) : waits (t ++ t') = waits t ++ waits t'.
Proof.
  induction t as [|e t IH]; simpl; [reflexivity|].
  destruct e; simpl; rewrite IH; reflexivity.
Qed.

Lemma retryOnLocks_complete (ss : SQLStore) ctx (callback : DBTransactionFunc U)
    (sess : ptr) (retry : Z) w (s' : Store U) :
  callback sess (store w) = (Ret None, s') ->
  retryOnLocks ss ctx callback sess retry w
  = (Ret (retryer.FuncComplete, None), int_wrap (retry + 1), called sess s' w).
Proof.
  intros Hcb. unfold retryOnLocks. now rewrite (invoke_called _ _ _ _ _ Hcb).
Qed.

Lemma attempts_until_success (ss : SQLStore) ctx (callback : DBTransactionFunc U)
    (sess : ptr) (maxDelay : time.Duration) :
  QueryRetries (dbCfg ss) < 2 ^ 63 ->
  forall (j more : nat) (delay : time.Duration) (retry : Z) w,
    (j <= more)%nat ->
    0 <= retry ->
    retry + Z.of_nat j < QueryRetries (dbCfg ss) ->
    (forall i : nat, (i < j)%nat ->
       exists e s' sqlError,
         callback sess (after_attempts i callback sess (store w)) = (Ret (Some e), s')
         /\ lock_contention (Some e) = Some (e, sqlError)) ->
    (callback sess (after_attempts j callback sess (store w))).1 = Ret None ->
    exists c w',
      retryer.attempts (retryOnLocks ss ctx callback sess) maxDelay more delay retry w
      = (Ret None, c, w')
      /\ store w' = after_attempts (S j) callback sess (store w)
      /\ invocations (trace w') = (invocations (trace w) + S j)%nat
      /\ waits (trace w') = waits (trace w) ++ backoffs j delay maxDelay.
Proof.
  intros Hmax. induction j as [|j IH]; intros more delay retry w Hj Hretry Hlim Hlocks Hok.
  - simpl in Hok. destruct (callback sess (store w)) as [r0 s'] eqn:Hcb.
    simpl in Hok. subst r0.
    exists (int_wrap (retry + 1)), (called sess s' w).
    split.
    + destruct more; cbn [retryer.attempts];
        now rewrite (retryOnLocks_complete ss ctx callback sess retry w s' Hcb).
    + simpl. rewrite Hcb, invocations_app, waits_app. simpl.
      rewrite !app_nil_r. repeat split.
  - destruct more as [|more]; [lia|].
    destruct (Hlocks 0%nat ltac:(lia)) as (e & s' & sqlError & Hcb & Hlock).
    simpl in Hcb. cbn [retryer.attempts].
    rewrite (retryOnLocks_locked ss ctx callback sess retry w e sqlError s' Hcb Hlock).
    rewrite int_wrap_small by lia.
    destruct (retry + 1 =? QueryRetries (dbCfg ss)) eqn:E; [apply Z.eqb_eq in E; lia|].
    match goal with
    | |- context [retryer.attempts _ _ more ?d ?r ?w1] =>
        destruct (IH more d r w1) as (c & w' & Hrun & Hs & Hinv & Hw)
    end.
    + lia.
    + lia.
    + lia.
    + intros i Hi. destruct (Hlocks (S i) ltac:(lia)) as (e' & s'' & sq' & Hcb' & Hlock').
      simpl in Hcb'. rewrite Hcb in Hcb'. simpl in Hcb'. simpl. eauto.
    + simpl. simpl in Hok. now rewrite Hcb in Hok.
    + exists c, w'. split; [exact Hrun|].
      simpl in Hs, Hinv, Hw.
      rewrite !invocations_app in Hinv. rewrite !waits_app in Hw. simpl in Hinv, Hw.
      rewrite !app_nil_r in Hw.
      split; [|split].
      * rewrite Hs. simpl. now rewrite Hcb.
      * rewrite Hinv. lia.
      * rewrite Hw. simpl. now rewrite <- app_assoc.
Qed.

(** X17: when the callback meets lock contention on its first [j] calls
    and then succeeds, with [j] below [QueryRetries], the retry executor
    returns nil after exactly [j + 1] calls, having waited [j] times, each
    wait twice the one before from 10ms on and at most one second; no
    call but the callback's own changes the store. *)
Theorem retry_callback_succeeds_after_contention (ss : SQLStore) ctx
    (callback : DBTransactionFunc U) (sess : ptr) w (j : nat) :
  QueryRetries (dbCfg ss) < 2 ^ 63 ->
  Z.of_nat j < QueryRetries (dbCfg ss) ->
  (forall i : nat, (i < j)%nat ->
     exists e s' sqlError,
       callback sess (after_attempts i callback sess (store w)) = (Ret (Some e), s')
       /\ lock_contention (Some e) = Some (e, sqlError)) ->
  (callback sess (after_attempts j callback sess (store w))).1 = Ret None ->
  exists w',
    retry_callback ss ctx callback sess w = (Ret None, w')
    /\ store w' = after_attempts (S j) callback sess (store w)
    /\ invocations (trace w') = (invocations (trace w) + S j)%nat
    /\ waits (trace w')
       = waits (trace w) ++ backoffs j (time.Millisecond * 10) time.Second.
Proof.
  intros Hmax Hj Hlocks Hok.
  destruct (attempts_until_success ss ctx callback sess time.Second Hmax j
              (Z.to_nat (QueryRetries (dbCfg ss) - 1)) (time.Millisecond * 10) 0 w)
    as (c & w' & Hrun & Hs & Hinv & Hw); try assumption; try lia.
  exists w'. unfold retry_callback, retryer.Retry. rewrite Hrun. auto.
Qed.

Lemma retry_callback_store (ss : SQLStore) ctx (callback : DBTransactionFunc U)
    (sess : ptr) w :
  exists k : nat,
    (1 <= k)%nat
    /\ Z.of_nat k <= Z.max 1 (QueryRetries (dbCfg ss))
    /\ store (retry_callback ss ctx callback sess w).2
       = after_attempts k callback sess (store w).
Proof.
  unfold retry_callback, retryer.Retry.
  destruct (retryer.attempts _ _ _ _ _ _) as [[r0 c] w0] eqn:Hrun.
  destruct (attempts_outcome _ _ _ _ _ _ _ _ _ _ _ _ Hrun) as (j & Hj & Hs & _).
  exists (S j). simpl. split; [lia|]. split; [lia|]. exact Hs.
Qed.

(** X19: what [WithDbSession] leaves in the store.  On a context without
    a session: a new session whose handle is bound to the context, then
    the callback applied between 1 and [QueryRetries] times to it, then
    the handle closed.  On a context with a session: the session's
    handle bound to the context, then the callback applied between 1 and
    [QueryRetries] times, and nothing after it. *)
Theorem WithDbSession_store (ss : SQLStore) ctx (callback : DBTransactionFunc U) w :
  (fresh_context ctx ->
   let xl := fresh (dom (xorm.sessions (db (store w)))) in
   let l := fresh (dom (heap (store w))) in
   exists k : nat,
     (1 <= k)%nat
     /\ Z.of_nat k <= Z.max 1 (QueryRetries (dbCfg ss))
     /\ store (WithDbSession ss ctx callback w).2
        = set_db (xorm.Close (Some xl))
            (after_attempts k callback (Some l)
               (store (created ctx (engine ss) false w)))
     /\ (xorm.ctx <$> xorm.sessions (db (store (created ctx (engine ss) false w))) !! xl)
        = Some (Some ctx))
  /\ (forall sess xl : loc, carries ctx w sess xl ->
      exists v x (k : nat),
        heap (store w) !! sess = Some v
        /\ xorm.sessions (db (store w)) !! xl = Some x
        /\ (1 <= k)%nat
        /\ Z.of_nat k <= Z.max 1 (QueryRetries (dbCfg ss))
        /\ store (WithDbSession ss ctx callback w).2
           = after_attempts k callback (Some sess)
               (store (reused ctx sess xl v x w))).
Proof.
  split.
  - intros Hfresh xl l. unfold WithDbSession.
    pose proof (start_fresh ctx (engine ss) false w Hfresh (or_introl eq_refl)) as Hstart.
    fold l in Hstart.
    assert (Heq : withDbSession ss ctx (engine ss) callback w
                  = (let '(r, w2) := retry_callback ss ctx callback (Some l)
                                       (created ctx (engine ss) false w) in
                     (r, set_store (set_db (xorm.Close (Some xl))) w2))).
    { unfold withDbSession, bind at 1. rewrite Hstart.
      unfold bind, on_store, deref, defer. simpl. fold l. rewrite lookup_insert_eq.
      reflexivity. }
    destruct (retry_callback_store ss ctx callback (Some l)
                (created ctx (engine ss) false w)) as (k & Hk1 & Hk2 & Hs).
    exists k. split; [exact Hk1|]. split; [exact Hk2|]. split.
    + rewrite Heq.
      destruct (retry_callback ss ctx callback (Some l) (created ctx (engine ss) false w))
        as [r w2].
      simpl in *. now rewrite Hs.
    + simpl. fold xl. now rewrite lookup_insert_eq.
  - intros sess xl [Hctx (v & x & Hv & Hx & Hxl)]. unfold WithDbSession.
    pose proof (start_reuse ctx (engine ss) false w sess xl v x Hctx Hv Hx Hxl) as Hstart.
    assert (Heq : withDbSession ss ctx (engine ss) callback w
                  = retry_callback ss ctx callback (Some sess) (reused ctx sess xl v x w)).
    { unfold withDbSession, bind at 1. now rewrite Hstart. }
    destruct (retry_callback_store ss ctx callback (Some sess)
                (reused ctx sess xl v x w)) as (k & Hk1 & Hk2 & Hs).
    exists v, x, k. rewrite Heq. auto.
Qed.

(** X20: what [WithNewDbSession] leaves in the store: a new session,
    then the callback applied between 1 and [QueryRetries] times to it,
    then the handle closed.  The handle the callback is first given is
    bound to no context: unlike [withDbSession], [WithNewDbSession] does
    not pass its context to the xorm session. *)
Theorem WithNewDbSession_store (ss : SQLStore) ctx (callback : DBTransactionFunc U) w :
  let xl := fresh (dom (xorm.sessions (db (store w)))) in
  let l := fresh (dom (heap (store w))) in
  exists k : nat,
    (1 <= k)%nat
    /\ Z.of_nat k <= Z.max 1 (QueryRetries (dbCfg ss))
    /\ store (WithNewDbSession ss ctx callback w).2
       = set_db (xorm.Close (Some xl))
           (after_attempts k callback (Some l) (with_new_session (engine ss) (store w)))
    /\ (xorm.ctx <$> xorm.sessions (db (with_new_session (engine ss) (store w))) !! xl)
       = Some None.
Proof.
  intros xl l.
  set (w1 := set_store (fun _ => with_new_session (engine ss) (store w)) w).
  assert (Heq : WithNewDbSession ss ctx callback w
                = (let '(r, w2) := retry_callback ss ctx callback (Some l) w1 in
                   (r, set_store (set_db (xorm.Close (Some xl))) w2))).
  { unfold WithNewDbSession. go_run. reflexivity. }
  destruct (retry_callback_store ss ctx callback (Some l) w1) as (k & Hk1 & Hk2 & Hs).
  exists k. split; [exact Hk1|]. split; [exact Hk2|]. split.
  - rewrite Heq. destruct (retry_callback ss ctx callback (Some l) w1) as [r w2].
    simpl in *. now rewrite Hs.
  - simpl. fold xl. now rewrite lookup_insert_eq.
Qed.

End coverage.

(** ** Properties of routes/metrics.go *)

Section metrics.
Context {Params PluginContext Factory Req Svc Metrics Bytes HttpError : Type}.
Variable env : routes.Env Params PluginContext Factory Req Svc Metrics Bytes HttpError.

(** X18: [MetricsHandler] returns a response or an error, never both and
    never neither.  When the parameters do not parse, the error has
    status 400 and carries the parser's error.  When the service cannot
    be made, the error has status 500 and carries that error, whatever
    the request asks for.  Otherwise the metrics are listed by the type
    of the request: all hard-coded ones, the hard-coded ones of the
    namespace, those the service lists for the namespace, or none for
    any other type; a failure of the listing or of [json.Marshal] gives
    status 500 with the error of that step, and a response is what
    [json.Marshal] made of the metrics listed. *)
Theorem MetricsHandler_status (pluginCtx : PluginContext) (reqCtxFactory : Factory)
    (parameters : Params) :
  let result := routes.MetricsHandler env pluginCtx reqCtxFactory parameters in
  (forall req e,
     routes.GetMetricsRequest env parameters = (req, Some e) ->
     result = (None, Some (routes.NewHttpError env "error in MetricsHandler"
                             routes.StatusBadRequest e)))
  /\ (forall req svc e,
        routes.GetMetricsRequest env parameters = (req, None) ->
        routes.newListMetricsService env pluginCtx reqCtxFactory (routes.Region env req)
        = (svc, Some e) ->
        result = (None, Some (routes.NewHttpError env "error in MetricsHandler"
                                routes.StatusInternalServerError e)))
  /\ (forall req svc,
        routes.GetMetricsRequest env parameters = (req, None) ->
        routes.newListMetricsService env pluginCtx reqCtxFactory (routes.Region env req)
        = (svc, None) ->
        (routes.Type_ env req = routes.AllMetricsRequestType ->
         routes.answers env result (routes.GetAllHardCodedMetrics env, None))
        /\ (routes.Type_ env req = routes.MetricsByNamespaceRequestType ->
            routes.answers env result
              (routes.GetHardCodedMetricsByNamespace env (routes.Namespace env req)))
        /\ (routes.Type_ env req = routes.CustomNamespaceRequestType ->
            routes.answers env result
              (routes.GetMetricsByNamespace env svc (routes.Namespace env req)))
        /\ (forall n, routes.Type_ env req = routes.OtherRequestType n ->
            routes.answers env result (routes.nil_metrics env, None)))
  /\ match result with
     | (Some _, None) | (None, Some _) => True
     | _ => False
     end.
Proof.
  intros result. subst result. unfold routes.MetricsHandler.
  split; [|split; [|split]].
  - intros req e ->. reflexivity.
  - intros req svc e -> ->. reflexivity.
  - intros req svc -> ->.
    assert (Hans : forall listed : Metrics * option error,
              routes.answers env
                (let '(metrics, err) := listed in
                 match err with
                 | Some e =>
                     (None, Some (routes.NewHttpError env "error in MetricsHandler"
                                    routes.StatusInternalServerError e))
                 | None =>
                     let '(metricsResponse, err0) := routes.Marshal env metrics in
                     match err0 with
                     | Some e =>
                         (None, Some (routes.NewHttpError env "error in MetricsHandler"
                                        routes.StatusInternalServerError e))
                     | None => (Some metricsResponse, None)
                     end
                 end) listed).
    { intros [metrics [e|]]; simpl; [reflexivity|].
      intros body. split; [intros e Hm|intros Hm]; now rewrite Hm. }
    split; [|split; [|split]].
    + intros ->. apply (Hans (routes.GetAllHardCodedMetrics env, None)).
    + intros ->. apply Hans.
    + intros ->. apply Hans.
    + intros n ->. apply (Hans (routes.nil_metrics env, None)).
  - destruct (routes.GetMetricsRequest env parameters) as [req [e|]]; [exact I|].
    destruct (routes.newListMetricsService env pluginCtx reqCtxFactory
                (routes.Region env req)) as [svc [e|]]; [exact I|].
    destruct (routes.Type_ env req);
      try destruct (routes.GetHardCodedMetricsByNamespace env (routes.Namespace env req))
        as [ms [e|]];
      try destruct (routes.GetMetricsByNamespace env svc (routes.Namespace env req))
        as [ms' [e'|]];
      try exact I;
      match goal with
      | |- context [routes.Marshal env ?m] =>
          destruct (routes.Marshal env m) as [body [e1|]]; exact I
      end.
Qed.

End metrics.

(** ** Cancellation and the retry executor *)

Section cancellation.
Context {U : Type}.

Implicit Types (w : World U) (ctx : context.Context).



End cancellation.

(** ** The further properties at sample data *)

Lemma publish_each_appends_witness :
  heap sample.s_live !! 0%nat = Some sample.v0
  /\ exists s',
       publish_each (Some 0%nat) [sample.msg_a; sample.msg_b; sample.msg_a] sample.s_live
       = (Ret tt, s')
       /\ (events <$> heap s' !! 0%nat)
          = Some [sample.msg_a; sample.msg_b; sample.msg_a].
Proof.
  split; [apply lookup_singleton_eq|].
  destruct (publish_each_appends [sample.msg_a; sample.msg_b; sample.msg_a]
              sample.s_live 0%nat sample.v0 (lookup_singleton_eq _ _))
    as (s' & Hrun & Hl & _).
  exists s'. split; [exact Hrun|]. now rewrite Hl.
Defined.

Lemma lock_contention_through_wrapping_witness :
  lock_contention (Some sample_edge.busy)
  = Some (sample_edge.busy, {| sqlite3.Code := 5; sqlite3.ExtendedCode := 0 |})
  /\ lock_contention
       (Some (wrap_all ["save dashboard"; "insert version"] sample_edge.busy))
     = Some (wrap_all ["save dashboard"; "insert version"] sample_edge.busy,
             {| sqlite3.Code := 5; sqlite3.ExtendedCode := 0 |}).
Proof.
  split; [reflexivity|].
  destruct (lock_contention_through_wrapping ["save dashboard"; "insert version"]
              sample_edge.busy) as [Hlock _].
  exact (proj1 (Hlock _ eq_refl)).
Defined.

Lemma InsertId_error_has_zero_id_witness :
  InsertId sample.dialect_post_fails (Some 0%nat) (Some sample.bean) sample.s_live
  = (Ret (0, Some sample.hook_error),
     (InsertId sample.dialect_post_fails (Some 0%nat) (Some sample.bean) sample.s_live).2)
  /\ 0 = 0.
Proof.
  split; [reflexivity|].
  exact (InsertId_error_has_zero_id sample.dialect_post_fails (Some 0%nat)
           (Some sample.bean) sample.s_live 0 sample.hook_error _ eq_refl).
Defined.

Lemma InsertId_insert_failure_witness :
  heap sample_edge.s_insert_fails !! 0%nat = Some sample.v0
  /\ xorm.insert_fault (db sample_edge.s_insert_fails) = Some sample_edge.driver_error
  /\ InsertId sample.dialect_post_fails (Some 0%nat) (Some sample.bean)
       sample_edge.s_insert_fails
     = (Ret (0, Some sample_edge.driver_error),
        set_db (fun _ => sample_edge.db_insert_fails) sample_edge.s_insert_fails).
Proof.
  split; [apply lookup_singleton_eq|]. split; [reflexivity|].
  exact (InsertId_insert_failure sample.dialect_post_fails sample_edge.s_insert_fails
           0%nat 0%nat sample.v0 sample.x0 sample.x0 sample.bean
           sample_edge.driver_error sample_edge.db_insert_fails
           (lookup_singleton_eq _ _) eq_refl (lookup_singleton_eq _ _) eq_refl
           (lookup_singleton_eq _ _) eq_refl).
Defined.

Lemma InsertId_returns_rows_affected_witness :
  heap sample_edge.s_one_row !! 0%nat = Some sample.v0
  /\ xorm.rows (db sample_edge.s_one_row) = [(sample.bean, 1)]
  /\ (InsertId sample.dialect_plain (Some 0%nat) (Some sample.bean)
        sample_edge.s_one_row).1
     = Ret (1, None)
  /\ xorm.rows (db (InsertId sample.dialect_plain (Some 0%nat) (Some sample.bean)
                      sample_edge.s_one_row).2)
     = [(sample.bean, 1); (sample.bean, 2)].
Proof.
  split; [apply lookup_singleton_eq|]. split; [reflexivity|].
  destruct (InsertId_returns_rows_affected sample.dialect_plain sample_edge.s_one_row
              0%nat 0%nat sample.v0 sample.x0 sample.x0 sample.bean
              sample_edge.db_one_row
              {| xorm.sessions := {[ 0%nat := sample.x0 ]};
                 xorm.rows := [(sample.bean, 1); (sample.bean, 2)];
                 xorm.begin_fault := None; xorm.insert_fault := None |}
              (lookup_singleton_eq _ _) eq_refl (lookup_singleton_eq _ _)
              eq_refl (lookup_singleton_eq _ _) eq_refl eq_refl) as [Heq Hrows].
  split; [now rewrite Heq|]. exact (Hrows eq_refl eq_refl).
Defined.

Lemma InsertId_panics_before_hooks_witness :
  (InsertId sample.dialect_plain None (Some sample.bean) sample.s_live
   = (Panic nil_deref, sample.s_live))
  /\ (InsertId sample.dialect_plain (Some 0%nat) None sample.s_live
      = (Panic nil_deref, sample.s_live)).
Proof.
  split.
  - apply InsertId_panics_before_hooks. now left.
  - apply InsertId_panics_before_hooks. right. right. right. split; [reflexivity|].
    exists 0%nat, 0%nat, sample.v0, sample.x0.
    split; [reflexivity|]. split; [apply lookup_singleton_eq|].
    split; [reflexivity|apply lookup_singleton_eq].
Defined.

Lemma startSessionOrUseExisting_nil_panics_witness :
  context.Value sample_edge.ctx_nil context.ContextSessionKey
  = Some (context.DBSessionPtr None)
  /\ startSessionOrUseExisting sample_edge.ctx_nil sample.eng true sample.w_live
     = (Panic nil_deref, sample.w_live).
Proof.
  split; [reflexivity|].
  destruct (startSessionOrUseExisting_nil_panics sample_edge.ctx_nil sample.eng true
              sample.w_live) as [Hnil _].
  exact (Hnil eq_refl).
Defined.

Lemma startSessionOrUseExisting_begin_failure_leaves_session_witness :
  @fresh_context context.Background
  /\ xorm.begin_fault (db (store sample_edge.w_begin_fails))
     = Some sample_edge.driver_error
  /\ exists w',
       startSessionOrUseExisting context.Background sample.eng true
         sample_edge.w_begin_fails
       = (Ret (None, false, Some sample_edge.driver_error), w')
       /\ (xorm.isClosed
            <$> xorm.sessions (db (store w'))
                  !! fresh (dom (xorm.sessions (db (store sample_edge.w_begin_fails)))))
          = Some false.
Proof.
  split; [exact sample_fresh_context|]. split; [reflexivity|].
  destruct (startSessionOrUseExisting_begin_failure_leaves_session context.Background
              sample.eng sample_edge.w_begin_fails sample_edge.driver_error
              sample_fresh_context eq_refl) as (w' & Hstart & _ & Hx & _).
  exists w'. split; [exact Hstart|]. now rewrite Hx.
Defined.

Lemma startSessionOrUseExisting_result_witness :
  startSessionOrUseExisting context.Background sample.eng false sample.w_empty
  = (Ret (Some 0%nat, true, None),
     (startSessionOrUseExisting context.Background sample.eng false sample.w_empty).2)
  /\ (true = true <-> @fresh_context context.Background).
Proof.
  split; [reflexivity|].
  exact (proj2 (startSessionOrUseExisting_result context.Background sample.eng false
                  sample.w_empty (Some 0%nat) true None _ eq_refl)).
Defined.

Lemma startSessionOrUseExisting_last_binding_wins_witness :
  carries sample.ctx_live sample.w_live 0%nat 0%nat
  /\ context.Value sample_edge.ctx_child context.ContextSessionKey
     = Some (context.DBSessionPtr (Some 0%nat))
  /\ store (startSessionOrUseExisting sample_edge.ctx_child sample.eng false
              (startSessionOrUseExisting sample.ctx_live sample.eng false
                 sample.w_live).2).2
     = store (startSessionOrUseExisting sample_edge.ctx_child sample.eng false
                sample.w_live).2.
Proof.
  split; [exact sample_carries|]. split; [reflexivity|].
  exact (proj1 (proj2 (startSessionOrUseExisting_last_binding_wins sample.ctx_live
                         sample_edge.ctx_child sample.eng false false sample.w_live
                         0%nat 0%nat sample_carries eq_refl))).
Defined.

Lemma retryOnLocks_signal_witness :
  retryOnLocks sample.ss5 context.Background sample.cb_locked (Some 0%nat) 0 sample.w_live
  = (Ret (retryer.FuncFailure, None), 1,
     (retryOnLocks sample.ss5 context.Background sample.cb_locked (Some 0%nat) 0
        sample.w_live).2)
  /\ 1 <> QueryRetries (dbCfg sample.ss5).
Proof.
  split; [reflexivity|].
  destruct (retryOnLocks_signal sample.ss5 context.Background sample.cb_locked
              (Some 0%nat) 0 sample.w_live retryer.FuncFailure None 1 _ eq_refl)
    as (_ & _ & _ & Hfail).
  exact (proj1 (Hfail eq_refl)).
Defined.

Lemma retryOnLocks_past_limit_never_gives_up_witness :
  QueryRetries (dbCfg sample_edge.ss0) <= 0
  /\ (retryOnLocks sample_edge.ss0 context.Background sample.cb_locked (Some 0%nat) 0
        sample.w_live).1
     = (Ret (retryer.FuncFailure, None), 1).
Proof.
  split; [discriminate|].
  rewrite (retryOnLocks_past_limit_never_gives_up sample_edge.ss0 context.Background
             sample.cb_locked (Some 0%nat) 0 sample.w_live sample.locked
             {| sqlite3.Code := 6; sqlite3.ExtendedCode := 0 |} sample.s_live
             eq_refl eq_refl ltac:(split; [discriminate|reflexivity])
             ltac:(discriminate)).
  reflexivity.
Defined.

Lemma retry_callback_outcome_witness :
  retry_callback sample.ss5 context.Background sample.cb_constraint (Some 0%nat)
    sample.w_live
  = (Ret (Some sample.constraint), called (Some 0%nat) sample.s_live sample.w_live)
  /\ exists j : nat,
       invoked_on (trace (called (Some 0%nat) sample.s_live sample.w_live))
       = invoked_on (trace sample.w_live) ++ repeat (Some 0%nat) (S j).
Proof.
  split; [reflexivity|].
  destruct (retry_callback_outcome sample.ss5 context.Background sample.cb_constraint
              (Some 0%nat) sample.w_live (Ret (Some sample.constraint))
              (called (Some 0%nat) sample.s_live sample.w_live) eq_refl)
    as (j & _ & Ht & _).
  exists j. exact Ht.
Defined.

Lemma sample_busy_twice (i : nat) :
  (i < 2)%nat ->
  exists e s' sqlError,
    sample.cb_busy_twice (Some 0%nat)
      (after_attempts i sample.cb_busy_twice (Some 0%nat) (store sample.w_counter))
    = (Ret (Some e), s')
    /\ lock_contention (Some e) = Some (e, sqlError).
Proof.
  intros Hi. destruct i as [|[|i]]; [| |lia];
    eexists _, _, _; split; reflexivity.
Qed.

Lemma retry_callback_succeeds_after_contention_witness :
  QueryRetries (dbCfg sample.ss5) < 2 ^ 63
  /\ Z.of_nat 2 < QueryRetries (dbCfg sample.ss5)
  /\ exists w',
       retry_callback sample.ss5 context.Background sample.cb_busy_twice (Some 0%nat)
         sample.w_counter
       = (Ret None, w')
       /\ invocations (trace w') = 3%nat
       /\ waits (trace w') = [20000000; 40000000].
Proof.
  split; [reflexivity|]. split; [reflexivity|].
  destruct (retry_callback_succeeds_after_contention sample.ss5 context.Background
              sample.cb_busy_twice (Some 0%nat) sample.w_counter 2 eq_refl eq_refl
              sample_busy_twice eq_refl) as (w' & Hrun & _ & Hinv & Hw).
  exists w'. split; [exact Hrun|]. split; [exact Hinv|exact Hw].
Defined.

Lemma WithDbSession_store_witness :
  @fresh_context context.Background
  /\ exists k : nat,
       (1 <= k)%nat
       /\ store (WithDbSession sample.ss5 context.Background sample.cb_ok sample.w_empty).2
          = set_db (xorm.Close (Some (fresh (dom (xorm.sessions
                                                    (db (store sample.w_empty)))))))
              (after_attempts k sample.cb_ok
                 (Some (fresh (dom (heap (store sample.w_empty)))))
                 (store (created context.Background (engine sample.ss5) false
                           sample.w_empty))).
Proof.
  split; [exact sample_fresh_context|].
  destruct (WithDbSession_store sample.ss5 context.Background sample.cb_ok
              sample.w_empty) as [Hnew _].
  destruct (Hnew sample_fresh_context) as (k & Hk & _ & Hs & _).
  exists k. split; [exact Hk|exact Hs].
Defined.



Lemma MetricsHandler_status_witness :
  routes.GetMetricsRequest sample_edge.metrics_env "Custom/App" = ("Custom/App", None)
  /\ routes.Type_ sample_edge.metrics_env "Custom/App" = routes.CustomNamespaceRequestType
  /\ routes.MetricsHandler sample_edge.metrics_env tt tt "Custom/App"
     = (None, Some ("error in MetricsHandler", 500, OpaqueError "throttled"))
  /\ routes.MetricsHandler sample_edge.metrics_env tt tt "bad"
     = (None, Some ("error in MetricsHandler", 400, OpaqueError "bad parameters")).
Proof.
  split; [reflexivity|]. split; [reflexivity|]. split.
  - destruct (MetricsHandler_status sample_edge.metrics_env tt tt "Custom/App")
      as (_ & _ & Hlist & _).
    destruct (Hlist "Custom/App" tt eq_refl eq_refl) as (_ & _ & Hcustom & _).
    exact (Hcustom eq_refl).
  - destruct (MetricsHandler_status sample_edge.metrics_env tt tt "bad")
      as (Hparse & _).
    exact (Hparse "bad" (OpaqueError "bad parameters") eq_refl).
Defined.
